(** * ecc_sign_helper.py: an ECDSA-P384 signing helper

    Shallow embedding of [sign_helper_example/ecc_sign_helper.py].  The
    script is glue around three libraries (argparse, binascii and
    cryptography) and the operating system (standard streams, files, exit
    status).  The glue is embedded as it is written.  binascii is embedded
    too.  argparse and cryptography are interfaces (type classes) the
    development is parametric in, so every theorem holds for whatever these
    libraries do within their interface.  The operating system is an
    explicit [World] threaded through a state-and-exception monad.

    Scope of the model: a POSIX process.  Standard input is the sequence of
    chunks the text layer of [sys.stdin] reads from the descriptor, each
    described by what the codec of the locale makes of it; lines end in a
    newline.  Files are named by the path strings the script uses;
    permissions, I/O errors and signals are not modelled. *)

From Stdlib Require Import ZArith NArith List String Ascii Bool Lia.
From Stdlib Require Import Strings.Byte.
From stdpp Require Import base option list gmap.

Local Open Scope N_scope.

(** ** Python values *)

(** A Python [str] is a sequence of Unicode code points; a [bytes] object is
    a sequence of octets. *)
Abbreviation pystr := (list N).
Abbreviation bytes := (list byte).

(** A string literal of the script. *)
Definition lit (s : string) : pystr :=
  List.map N_of_ascii (list_ascii_of_string s).

Arguments lit : simpl never.

(** ["\n"] *)
Definition nl : pystr := [10].

(** Truth value of a [str]: the empty string is false. *)
Definition truthy (s : pystr) : bool :=
  match s with [] => false | _ :: _ => true end.

(** Truth value of an attribute that is [None] or a [str]. *)
Definition truthy_opt (o : option pystr) : bool :=
  match o with None => false | Some s => truthy s end.

(** How an f-string renders an attribute that is [None] or a [str]. *)
Definition format_opt (o : option pystr) : pystr :=
  match o with None => lit "None" | Some s => s end.

(** [str.isspace] on one code point: the characters [str.strip()] removes. *)
Definition isspace (c : N) : bool :=
  ((9 <=? c) && (c <=? 13)) || ((28 <=? c) && (c <=? 32))
  || (c =? 133) || (c =? 160) || (c =? 5760)
  || ((8192 <=? c) && (c <=? 8202))
  || (c =? 8232) || (c =? 8233) || (c =? 8239) || (c =? 8287)
  || (c =? 12288).

Fixpoint lstrip (s : pystr) : pystr :=
  match s with
  | [] => []
  | c :: r => if isspace c then lstrip r else s
  end.

Definition rstrip (s : pystr) : pystr := rev (lstrip (rev s)).

(** [s.strip()] *)
Definition strip (s : pystr) : pystr := rstrip (lstrip s).

(** Exceptions: the class name and the message. *)
Inductive exn : Type := Exception (cls : string) (msg : pystr).

(** What a library call gives back: a value, or an exception it raises. *)
Inductive result (A : Type) : Type :=
| Ok (a : A)
| Err (e : exn).
Arguments Ok {A} a.
Arguments Err {A} e.

(** ** binascii *)

Definition hex_value (c : N) : option N :=
  if (48 <=? c) && (c <=? 57) then Some (c - 48)
  else if (97 <=? c) && (c <=? 102) then Some (c - 87)
  else if (65 <=? c) && (c <=? 70) then Some (c - 55)
  else None.

Definition byte_of_nibbles (hi lo : N) : byte :=
  match Byte.of_N (16 * hi + lo) with
  | Some b => b
  | None => x00
  end.

Definition binascii_Error (m : string) : exn :=
  Exception "binascii.Error" (lit m).

Fixpoint a2b_pairs (s : pystr) : result bytes :=
  match s with
  | hi :: lo :: r =>
      match hex_value hi, hex_value lo with
      | Some h, Some l =>
          match a2b_pairs r with
          | Ok bs => Ok (byte_of_nibbles h l :: bs)
          | Err e => Err e
          end
      | _, _ => Err (binascii_Error "Non-hexadecimal digit found")
      end
  | _ => Ok []
  end.

(** [binascii.unhexlify] on a [str] argument: the string must be ASCII, of
    even length, and made of hexadecimal digits (either case). *)
Definition unhexlify (s : pystr) : result bytes :=
  if negb (forallb (fun c => c <? 128) s) then
    Err (Exception "ValueError"
           (lit "string argument should contain only ASCII characters"))
  else if Nat.odd (length s) then Err (binascii_Error "Odd-length string")
  else a2b_pairs s.

Definition hex_char (d : N) : byte :=
  match Byte.of_N (if d <? 10 then 48 + d else 87 + d) with
  | Some b => b
  | None => x00
  end.

(** [binascii.hexlify]: two lowercase digits per octet. *)
Definition hexlify (bs : bytes) : bytes :=
  flat_map (fun b => [hex_char (Byte.to_N b / 16);
                      hex_char (Byte.to_N b mod 16)]) bs.

(** [b.decode()] on ASCII data (the only data the script decodes is the
    output of [hexlify]). *)
Definition decode (bs : bytes) : pystr := List.map Byte.to_N bs.

(** ** argparse *)

(** The namespace [parse_args] returns for this parser: [--key] (required),
    [--by-file] (store_true) and [--input] (optional, [None] by default). *)
Record Namespace : Type := mkNamespace {
  key : pystr;
  by_file : bool;
  input : option pystr
}.

(** [parse_args] returns the namespace, or reports a usage error, or prints
    the help text. *)
Inductive parse_outcome : Type :=
| Parsed (args : Namespace)
| UsageError (message : pystr)
| HelpRequested.

(** The parser the script builds: its program name, usage line and help text,
    and what [parse_args] makes of a command line. *)
Class ArgumentParser : Type := {
  prog : pystr;
  format_usage : pystr;
  format_help : pystr;
  parse_args : list pystr -> parse_outcome
}.

(** ** cryptography *)

Inductive hash_algorithm : Type := SHA256 | SHA384 | SHA512.

Definition digest_size (h : hash_algorithm) : nat :=
  match h with SHA256 => 32%nat | SHA384 => 48%nat | SHA512 => 64%nat end.

(** [ec.ECDSA(algorithm)], where the algorithm is a hash or [Prehashed(hash)]. *)
Inductive signature_algorithm : Type :=
| ECDSA_Hash (h : hash_algorithm)
| ECDSA_Prehashed (h : hash_algorithm).

(** The two calls the script makes into the library.  Signing draws on the
    system's randomness, which is threaded explicitly. *)
Class Cryptography : Type := {
  PrivateKey : Type;
  Entropy : Type;
  load_pem_private_key : bytes -> result PrivateKey;
  private_key_sign :
    PrivateKey -> bytes -> signature_algorithm -> Entropy ->
    result bytes * Entropy
}.

(** The verifying side of the library, and its contract with the signing
    side: a signature [sign] returns is accepted by [verify] under the public
    key of the signing key, for the same data and algorithm. *)
Class Verification (C : Cryptography) : Type := {
  PublicKey : Type;
  public_key : PrivateKey -> PublicKey;
  public_key_verify :
    PublicKey -> bytes -> bytes -> signature_algorithm -> bool;
  sign_verifies :
    forall private_key data algorithm e signature e',
      private_key_sign private_key data algorithm e = (Ok signature, e') ->
      public_key_verify (public_key private_key) signature data algorithm = true
}.

(** ** The operating system *)

(** A path names a regular file (with its contents) or a directory.  Paths
    are compared as the strings the script passes; the working directory is
    fixed. *)
Inductive node : Type :=
| File (contents : bytes)
| Dir.

Inductive open_mode : Type := Rb | Wb.

(** [sys.stdin] is a text layer over the descriptor.  It reads the
    descriptor chunk by chunk (what one [read] of up to 8192 octets returns)
    and decodes each chunk as a whole with the codec of the locale.  A chunk
    is described by the text its octets decode to, or, when the codec rejects
    an octet sequence in it, by the text up to that sequence and the
    [UnicodeDecodeError] that decoding the chunk raises. *)
Inductive chunk : Type :=
| Decoded (text : pystr)
| Undecodable (text : pystr) (e : exn).

(** The text a chunk holds, up to the octets the codec rejects. *)
Definition chunk_text (c : chunk) : pystr :=
  match c with Decoded text => text | Undecodable text _ => text end.

(** [repr] of a [str]: the quotes and the escapes are the interpreter's (they
    follow its Unicode tables).  An [OSError] prints its file name with it. *)
Class Interpreter : Type := {
  repr : pystr -> pystr
}.

(** ** The interpreter: state, [SystemExit] and exceptions *)

(** A statement returns, or raises [SystemExit(code)], or raises another
    exception. *)
Inductive outcome (A : Type) : Type :=
| Ret (a : A)
| Exit (code : Z)
| Raise (e : exn).
Arguments Ret {A} a.
Arguments Exit {A} code.
Arguments Raise {A} e.

Section Script.

Context {argparse : ArgumentParser} {cryptography : Cryptography}
        {interpreter : Interpreter}.

(** Calls that leave the process, in program order: every [open], and the
    two library calls with what they returned. *)
Inductive event : Type :=
| EvOpen (path : pystr) (mode : open_mode)
| EvLoadKey (pem : bytes) (r : result PrivateKey)
| EvSign (private_key : PrivateKey) (digest : bytes)
         (algorithm : signature_algorithm) (r : result bytes).

Record World : Type := mkWorld {
  fs : gmap pystr node;
  stdin : list chunk;     (* chunks not yet read from standard input *)
  stdout : pystr;         (* text written to standard output so far *)
  stderr : pystr;         (* text written to standard error so far *)
  entropy : Entropy;
  trace : list event
}.

Definition set_fs (f : gmap pystr node) (w : World) : World :=
  mkWorld f (stdin w) (stdout w) (stderr w) (entropy w) (trace w).
Definition set_stdin (s : list chunk) (w : World) : World :=
  mkWorld (fs w) s (stdout w) (stderr w) (entropy w) (trace w).
Definition set_stdout (s : pystr) (w : World) : World :=
  mkWorld (fs w) (stdin w) s (stderr w) (entropy w) (trace w).
Definition set_stderr (s : pystr) (w : World) : World :=
  mkWorld (fs w) (stdin w) (stdout w) s (entropy w) (trace w).
Definition set_entropy (e : Entropy) (w : World) : World :=
  mkWorld (fs w) (stdin w) (stdout w) (stderr w) e (trace w).
Definition log (ev : event) (w : World) : World :=
  mkWorld (fs w) (stdin w) (stdout w) (stderr w) (entropy w) (trace w ++ [ev]).

(** A statement of the script: a function of the world. *)
Definition M (A : Type) : Type := World -> outcome A * World.

#[export] Instance M_ret : MRet M := fun A a w => (Ret a, w).
#[export] Instance M_bind : MBind M := fun A B f m w =>
  match m w with
  | (Ret a, w') => f a w'
  | (Exit c, w') => (Exit c, w')
  | (Raise e, w') => (Raise e, w')
  end.

(** [sys.exit(code)] *)
Definition sys_exit {A : Type} (code : Z) : M A := fun w => (Exit code, w).

Definition raise {A : Type} (e : exn) : M A := fun w => (Raise e, w).

(** A pure library call that may raise. *)
Definition call {A : Type} (r : result A) : M A :=
  match r with Ok a => mret a | Err e => raise e end.

(** [sys.stdout.write(s)] and [sys.stderr.write(s)] *)
Definition sys_stdout_write (s : pystr) : M unit :=
  fun w => (Ret tt, set_stdout (stdout w ++ s) w).
Definition sys_stderr_write (s : pystr) : M unit :=
  fun w => (Ret tt, set_stderr (stderr w ++ s) w).

(** The first line of a text, with its terminating newline if it has one,
    and the rest. *)
Fixpoint split_line (s : pystr) : pystr * pystr :=
  match s with
  | [] => ([], [])
  | c :: r =>
      if c =? 10 then ([c], r)
      else let (l, r') := split_line r in (c :: l, r')
  end.

(** [readline] on a text layer that has read nothing yet.  Chunks are read
    and decoded until one brings a newline or the input ends; [read] is the
    text of the chunks before.  Gives the line, or the error of the chunk
    that does not decode, and the chunks left on the descriptor.  What a
    chunk holds after the newline stays in the buffer of the text layer. *)
Fixpoint readline (read : pystr) (chunks : list chunk)
    : result pystr * list chunk :=
  match chunks with
  | [] => (Ok read, [])
  | Undecodable _ e :: rest => (Err e, rest)
  | Decoded text :: rest =>
      if existsb (N.eqb 10) text then (Ok (read ++ fst (split_line text)), rest)
      else readline (read ++ text) rest
  end.

(** [sys.stdin.readline()], the only read of standard input in the script. *)
Definition sys_stdin_readline : M pystr :=
  fun w => let (r, rest) := readline [] (stdin w) in call r (set_stdin rest w).

(** [os.path.exists(path)] *)
Definition os_path_exists (path : pystr) : M bool :=
  fun w => (Ret (bool_decide (is_Some (fs w !! path))), w).

(** The [OSError] of a failed [open]: [[Errno N] text: repr(path)]. *)
Definition errno_error (cls : string) (errno : string) (path : pystr) : exn :=
  Exception cls (lit errno ++ lit ": " ++ repr path).

(** [with open(path, "rb") as f: ... f.read()] *)
Definition open_rb_read (path : pystr) : M bytes :=
  fun w =>
    let w' := log (EvOpen path Rb) w in
    match fs w !! path with
    | Some (File contents) => (Ret contents, w')
    | Some Dir =>
        (Raise (errno_error "IsADirectoryError" "[Errno 21] Is a directory" path), w')
    | None =>
        (Raise (errno_error "FileNotFoundError"
                  "[Errno 2] No such file or directory" path), w')
    end.

(** [with open(path, "wb") as f: f.write(data)]: the file is created or
    truncated, then holds [data]. *)
Definition open_wb_write (path : pystr) (data : bytes) : M unit :=
  fun w =>
    let w' := log (EvOpen path Wb) w in
    match fs w !! path with
    | Some Dir =>
        (Raise (errno_error "IsADirectoryError" "[Errno 21] Is a directory" path), w')
    | _ => (Ret tt, set_fs (<[path := File data]> (fs w)) w')
    end.

(** [serialization.load_pem_private_key(data, password=None)] *)
Definition serialization_load_pem_private_key (data : bytes) : M PrivateKey :=
  fun w =>
    let r := load_pem_private_key data in
    call r (log (EvLoadKey data r) w).

(** [private_key.sign(data, algorithm)] *)
Definition sign (private_key : PrivateKey) (data : bytes)
    (algorithm : signature_algorithm) : M bytes :=
  fun w =>
    let (r, e) := private_key_sign private_key data algorithm (entropy w) in
    call r (log (EvSign private_key data algorithm r) (set_entropy e w)).

(** ** The script *)

(** [sign_digest]: signs a pre-hashed digest using ECDSA-P384. *)
Definition sign_digest (digest : bytes) (key_path : pystr) : M bytes :=
  pem ← open_rb_read key_path;
  private_key ← serialization_load_pem_private_key pem;
  signature ← sign private_key digest (ECDSA_Prehashed SHA384);
  mret signature.

(** [sign_from_stdin]: read the digest from stdin, write the signature to
    stdout. *)
Definition sign_from_stdin (key_path : pystr) : M unit :=
  line ← sys_stdin_readline;
  let digest_hex := strip line in
  (if negb (truthy digest_hex) then
     sys_stderr_write (lit "Error: No digest provided via stdin" ++ nl);;
     sys_exit 1
   else mret tt);;
  digest ← call (unhexlify digest_hex);
  sys_stderr_write
    (lit "[STDIN MODE] Signing digest:" ++ nl ++ lit " " ++ digest_hex ++ nl);;
  signature ← sign_digest digest key_path;
  let sig_hex := decode (hexlify signature) in
  sys_stderr_write (lit "Signature generated (DER hex): " ++ sig_hex ++ nl);;
  sys_stdout_write (sig_hex ++ nl).

(** [sign_by_file]: read the digest from the file, overwrite the file with
    the signature. *)
Definition sign_by_file (key_path : pystr) (input_path : pystr) : M unit :=
  exists_ ← os_path_exists input_path;
  (if negb exists_ then
     sys_stderr_write
       (lit "Error: input file '" ++ input_path ++ lit "' does not exist" ++ nl);;
     sys_exit 1
   else mret tt);;
  digest ← open_rb_read input_path;
  sys_stderr_write
    (lit "[FILE MODE] Signing digest from file: " ++ input_path ++ nl);;
  signature ← sign_digest digest key_path;
  open_wb_write input_path signature;;
  sys_stderr_write (lit "Signature written back to file: " ++ input_path ++ nl).

(** [parser.parse_args()]: a usage error prints the usage and the message on
    stderr and exits with status 2; [-h] prints the help on stdout and exits
    with status 0. *)
Definition parser_parse_args (argv : list pystr) : M Namespace :=
  match parse_args argv with
  | Parsed args => mret args
  | UsageError message =>
      sys_stderr_write format_usage;;
      sys_stderr_write (prog ++ lit ": error: " ++ message ++ nl);;
      sys_exit 2
  | HelpRequested =>
      sys_stdout_write format_help;;
      sys_exit 0
  end.

(** [main], lines 69 to 75: select the private key from [--key]. *)
Definition main_select_key (args : Namespace) : M pystr :=
  if bool_decide (key args = lit "fw") then
    mret (lit "key/ast2700a1-default/own-fw-ecc-prvk.pem")
  else if bool_decide (key args = lit "man") then
    mret (lit "key/ast2700a1-default/own-man-ecc-prvk.pem")
  else
    sys_stderr_write (lit "Unknown key type: " ++ key args ++ nl);;
    sys_exit 1.

(** [main], lines 80 to 87: choose the flow from [--by-file].  Past the
    check, [args.input] is a non-empty [str]; [os.path.exists(None)] would
    raise [TypeError]. *)
Definition main_dispatch (key_path : pystr) (args : Namespace) : M unit :=
  if by_file args then
    (if negb (truthy_opt (input args)) then
       sys_stderr_write
         (lit "Error: --input <path> is required when using --by-file" ++ nl);;
       sys_exit 1
     else mret tt);;
    sys_stderr_write (lit "Using input file: " ++ format_opt (input args) ++ nl);;
    match input args with
    | Some input_path => sign_by_file key_path input_path
    | None =>
        raise (Exception "TypeError"
                 (lit "stat: path should be string, bytes, os.PathLike or integer, not NoneType"))
    end
  else
    sign_from_stdin key_path.

(** [main] *)
Definition main (argv : list pystr) : M unit :=
  args ← parser_parse_args argv;
  key_path ← main_select_key args;
  main_dispatch key_path args.

(** What the interpreter prints for an exception nobody caught (the stack
    frames between the header and the last line are left out). *)
Definition format_exception (e : exn) : pystr :=
  match e with
  | Exception cls msg =>
      lit "Traceback (most recent call last):" ++ nl
      ++ lit cls ++ lit ": " ++ msg ++ nl
  end.

(** Running a program as a process: the exit status and the final world.
    Falling off the end exits with 0, [sys.exit(code)] with [code], an
    uncaught exception prints its traceback on stderr and exits with 1. *)
Definition run (m : M unit) (w : World) : Z * World :=
  match m w with
  | (Ret _, w') => (0%Z, w')
  | (Exit code, w') => (code, w')
  | (Raise e, w') => (1%Z, set_stderr (stderr w' ++ format_exception e) w')
  end.

(** [if __name__ == "__main__": main()] *)
Definition script (argv : list pystr) (w : World) : Z * World :=
  run (main argv) w.

(** ** Vocabulary of the specification *)

(** The key-path table of the interface description: [fw] and [man] each
    select a fixed path, nothing else selects one. *)
Definition spec_key_path (k : pystr) : option pystr :=
  if bool_decide (k = lit "fw") then
    Some (lit "key/ast2700a1-default/own-fw-ecc-prvk.pem")
  else if bool_decide (k = lit "man") then
    Some (lit "key/ast2700a1-default/own-man-ecc-prvk.pem")
  else None.

(** Valid hexadecimal: an even number of characters, all of them hex digits. *)
Definition valid_hex (s : pystr) : bool :=
  Nat.even (length s) && forallb (fun c => bool_decide (is_Some (hex_value c))) s.

(** What [readline] makes of standard input: the first line, or the error of
    a chunk that does not decode. *)
Definition first_line (w : World) : result pystr :=
  fst (readline [] (stdin w)).

(** The chunks of standard input [readline] leaves on the descriptor. *)
Definition unread (w : World) : list chunk :=
  snd (readline [] (stdin w)).

(** The first line of standard input, stripped; there is none when the
    input does not decode. *)
Definition first_line_stripped (w : World) : pystr :=
  match first_line w with
  | Ok line => strip line
  | Err _ => []
  end.

(** The white space a line may carry around its text: the code points
    [str.isspace] accepts, the newline apart. *)
Definition blank (c : N) : bool :=
  existsb (N.eqb c)
    [ 9; 11; 12; 13; 28; 29; 30; 31; 32; 133; 160; 5760;
      8192; 8193; 8194; 8195; 8196; 8197; 8198; 8199; 8200; 8201; 8202;
      8232; 8233; 8239; 8287; 12288 ].

(** The text standard input holds, up to the first octets the codec
    rejects. *)
Definition stdin_text (chunks : list chunk) : pystr :=
  concat (List.map chunk_text chunks).

(** The four validation errors of the interface description. *)
Inductive validation_error (args : Namespace) (w : World) : Prop :=
| missing_digest :
    by_file args = false -> first_line_stripped w = [] ->
    validation_error args w
| missing_file (input_path : pystr) :
    by_file args = true -> input args = Some input_path ->
    fs w !! input_path = None ->
    validation_error args w
| unknown_key_type :
    spec_key_path (key args) = None ->
    validation_error args w
| missing_input :
    by_file args = true -> truthy_opt (input args) = false ->
    validation_error args w.

(** The digests handed to the library's signing call, in order. *)
Definition signed_digests (evs : list event) : list bytes :=
  flat_map (fun ev => match ev with
                      | EvSign _ digest _ _ => [digest]
                      | _ => []
                      end) evs.

(** In a sequence of events, every opening of a file for writing comes after
    a signing call that returned a signature. *)
Definition writes_follow_signature (evs : list event) : Prop :=
  forall pre path post,
    evs = pre ++ EvOpen path Wb :: post ->
    exists private_key digest signature,
      In (EvSign private_key digest (ECDSA_Prehashed SHA384) (Ok signature)) pre.

End Script.

Arguments World {cryptography}.
Arguments event {cryptography}.

(** ** A model of the parser built in [main]

    argparse on the parser of lines 60 to 63: [--opt value], [--opt=value],
    unambiguous prefixes of a long option, [-h] alone or in a cluster, and a
    bare [--], after which nothing is an option.  Three corners of argparse
    are not reproduced: only ASCII digits make a negative number, [-h=] with
    nothing after the sign is read as [-h], and the messages quote a
    rejected value between plain single quotes.  The theorems below hold for
    every [ArgumentParser]; this instance serves the examples. *)
Module Argparse.

Inductive option_id : Type := OptHelp | OptKey | OptByFile | OptInput.

Definition long_options : list (pystr * option_id) :=
  [ (lit "--help", OptHelp); (lit "--key", OptKey);
    (lit "--by-file", OptByFile); (lit "--input", OptInput) ].

Fixpoint is_prefix (p s : pystr) : bool :=
  match p, s with
  | [], _ => true
  | c :: p', d :: s' => (c =? d) && is_prefix p' s'
  | _ :: _, [] => false
  end.

(** [s.split("=", 1)]: the text before the first [=], and the text after it
    if there is one. *)
Fixpoint split_eq (s : pystr) : pystr * option pystr :=
  match s with
  | [] => ([], None)
  | c :: r =>
      if c =? 61 then ([], Some r)
      else let (a, b) := split_eq r in (c :: a, b)
  end.

Definition is_digit (c : N) : bool := (48 <=? c) && (c <=? 57).

Fixpoint take_while {A : Type} (f : A -> bool) (l : list A) : list A :=
  match l with
  | x :: r => if f x then x :: take_while f r else []
  | [] => []
  end.

Fixpoint drop_while {A : Type} (f : A -> bool) (l : list A) : list A :=
  match l with
  | x :: r => if f x then drop_while f r else l
  | [] => []
  end.

(** [^-\d+$|^-\d*\.\d+$] *)
Definition negative_number (s : pystr) : bool :=
  match s with
  | 45 :: r =>
      let (a, b) := (take_while is_digit r, drop_while is_digit r) in
      match b with
      | [] => truthy a
      | 46 :: f => truthy f && forallb is_digit f
      | _ => false
      end
  | _ => false
  end.

Inductive token : Type :=
| Positional
| Optional (o : option_id) (explicit_arg : option pystr)
| Unknown
| Ambiguous.

Definition classify (s : pystr) : token :=
  match s with
  | 45 :: _ :: _ =>
      if bool_decide (s = lit "-h") then Optional OptHelp None
      else if is_prefix (lit "--") s then
        let (name, explicit_arg) := split_eq s in
        match List.filter (fun o => is_prefix name (fst o)) long_options with
        | [o] => Optional (snd o) explicit_arg
        | _ :: _ :: _ => Ambiguous
        | [] => if existsb (N.eqb 32) s then Positional else Unknown
        end
      else if bool_decide (fst (split_eq s) = lit "-h") then
        Optional OptHelp (snd (split_eq s))
      else if is_prefix (lit "-h") s then Optional OptHelp (Some (drop 2 s))
      else if negative_number s then Positional
      else if existsb (N.eqb 32) s then Positional
      else Unknown
  | _ => Positional
  end.

Record state : Type := mkState {
  st_key : option pystr;
  st_by_file : bool;
  st_input : option pystr;
  st_extras : list pystr
}.

Definition join (ws : list pystr) : pystr :=
  match ws with
  | [] => []
  | w :: r => w ++ flat_map (fun x => 32 :: x) r
  end.

Definition finish (st : state) : parse_outcome :=
  match st_key st with
  | None => UsageError (lit "the following arguments are required: --key")
  | Some k =>
      match st_extras st with
      | [] => Parsed (mkNamespace k (st_by_file st) (st_input st))
      | extras => UsageError (lit "unrecognized arguments: " ++ join extras)
      end
  end.

Definition expected_one (o : string) : parse_outcome :=
  UsageError (lit "argument " ++ lit o ++ lit ": expected one argument").

Definition ignored_explicit (o : string) (a : pystr) : parse_outcome :=
  UsageError (lit "argument " ++ lit o ++ lit ": ignored explicit argument '"
              ++ a ++ lit "'").

(** Whether a command-line argument can be the value of an option: it must
    not itself look like an option. *)
Definition is_value (s : pystr) : bool :=
  match classify s with
  | Positional => negb (bool_decide (s = lit "--"))
  | _ => false
  end.

Definition set_key (v : pystr) (st : state) : state :=
  mkState (Some v) (st_by_file st) (st_input st) (st_extras st).
Definition set_by_file (st : state) : state :=
  mkState (st_key st) true (st_input st) (st_extras st).
Definition set_input (v : pystr) (st : state) : state :=
  mkState (st_key st) (st_by_file st) (Some v) (st_extras st).
Definition add_extras (l : list pystr) (st : state) : state :=
  mkState (st_key st) (st_by_file st) (st_input st) (st_extras st ++ l).

Definition dashes (s : pystr) : bool := bool_decide (s = lit "--").

(** The arguments are consumed from left to right.  An option that takes a
    value takes the next argument, if it does not look like an option.
    After a bare [--] no argument is an option: the [--] and what follows
    are left over, as is every argument that no option takes. *)
Fixpoint consume (args : list pystr) (st : state) : parse_outcome :=
  match args with
  | [] => finish st
  | s :: rest =>
      if dashes s then finish (add_extras (s :: rest) st)
      else
        match classify s with
        | Positional | Unknown | Ambiguous => consume rest (add_extras [s] st)
        | Optional OptHelp None => HelpRequested
        | Optional OptHelp (Some a) =>
            if is_prefix (lit "--") s then ignored_explicit "-h/--help" a
            else
              match drop_while (N.eqb 104) a with
              | [] => HelpRequested
              | a' => ignored_explicit "-h/--help" a'
              end
        | Optional OptByFile None => consume rest (set_by_file st)
        | Optional OptByFile (Some a) => ignored_explicit "--by-file" a
        | Optional OptKey (Some v) => consume rest (set_key v st)
        | Optional OptKey None =>
            match rest with
            | v :: rest' =>
                if is_value v then consume rest' (set_key v st)
                else expected_one "--key"
            | [] => expected_one "--key"
            end
        | Optional OptInput (Some v) => consume rest (set_input v st)
        | Optional OptInput None =>
            match rest with
            | v :: rest' =>
                if is_value v then consume rest' (set_input v st)
                else expected_one "--input"
            | [] => expected_one "--input"
            end
        end
  end.

(** Ambiguous prefixes are reported before any option takes effect. *)
Definition parse (argv : list pystr) : parse_outcome :=
  match List.filter (fun s => match classify s with Ambiguous => true | _ => false end)
          (take_while (fun s => negb (dashes s)) argv) with
  | s :: _ =>
      UsageError (lit "ambiguous option: " ++ s
                  ++ lit " could match --help, --key, --by-file, --input")
  | [] => consume argv (mkState None false None [])
  end.

Definition help : pystr :=
  lit "usage: ecc_sign_helper.py [-h] --key KEY [--by-file] [--input INPUT]" ++ nl
  ++ nl
  ++ lit "ECDSA-P384 signing helper (supports stdin/stdout or file mode)" ++ nl
  ++ nl
  ++ lit "options:" ++ nl
  ++ lit "  -h, --help     show this help message and exit" ++ nl
  ++ lit "  --key KEY      Key type (fw | man)" ++ nl
  ++ lit "  --by-file      Use file-based mode (digest in file, signature written back)" ++ nl
  ++ lit "  --input INPUT  Path to input file (used in file mode)" ++ nl.

#[global] Instance parser : ArgumentParser := {|
  prog := lit "ecc_sign_helper.py";
  format_usage :=
    lit "usage: ecc_sign_helper.py [-h] --key KEY [--by-file] [--input INPUT]" ++ nl;
  format_help := help;
  parse_args := parse
|}.

End Argparse.

(** ** A small instance of the cryptography interface

    Textbook ECDSA on the curve y^2 = x^3 + 2x + 2 over the field of 17
    elements, with the base point (5, 1) of prime order 19.  A key file holds
    the private scalar as one octet; the nonces come from the entropy, a list
    of integers; the signature is the DER encoding of (r, s).  As in the
    library, prehashed data must have the length of the hash. *)
Module TinyEcdsa.

Local Open Scope Z_scope.

Definition p : Z := 17.
Definition a : Z := 2.
Definition n : Z := 19.

Definition point : Type := option (Z * Z).

Definition G : point := Some (5, 1).

Definition inv_mod (x m : Z) : Z := (x ^ (m - 2)) mod m.

Definition add (P Q : point) : point :=
  match P, Q with
  | None, _ => Q
  | _, None => P
  | Some (x1, y1), Some (x2, y2) =>
      if (x1 =? x2) && ((y1 + y2) mod p =? 0) then None
      else
        let l :=
          if x1 =? x2 then ((3 * x1 * x1 + a) * inv_mod (2 * y1) p) mod p
          else ((y2 - y1) * inv_mod (x2 - x1) p) mod p in
        let x3 := (l * l - x1 - x2) mod p in
        Some (x3, (l * (x1 - x3) - y1) mod p)
  end.

Fixpoint mul_pos (k : positive) (P : point) : point :=
  match k with
  | xH => P
  | xO k' => let Q := mul_pos k' P in add Q Q
  | xI k' => let Q := mul_pos k' P in add P (add Q Q)
  end.

Definition mul (k : Z) (P : point) : point :=
  match k with
  | Zpos q => mul_pos q P
  | _ => None
  end.

(** The leftmost five bits of the digest (19 has five bits). *)
Definition digest_int (data : bytes) : Z :=
  match data with
  | b :: _ => Z.of_N (Byte.to_N b) / 8
  | [] => 0
  end.

Definition in_range (k : Z) : bool := (0 <? k) && (k <? n).

Definition sign_with (d z k : Z) : option (Z * Z) :=
  match mul k G with
  | Some (x, _) =>
      let r := x mod n in
      let s := (inv_mod k n * (z + r * d)) mod n in
      if (r =? 0) || (s =? 0) then None else Some (r, s)
  | None => None
  end.

Definition octet (v : Z) : byte :=
  match Byte.of_N (Z.to_N v) with
  | Some b => b
  | None => x00
  end.

(** SEQUENCE { INTEGER r, INTEGER s }, each integer on one octet. *)
Definition der (r s : Z) : bytes :=
  [x30; x06; x02; x01; octet r; x02; x01; octet s].

Fixpoint sign_loop (d z : Z) (nonces : list Z) : result bytes * list Z :=
  match nonces with
  | [] => (Err (Exception "InternalError" (lit "no entropy left")), [])
  | k :: rest =>
      if in_range k then
        match sign_with d z k with
        | Some (r, s) => (Ok (der r s), rest)
        | None => sign_loop d z rest
        end
      else sign_loop d z rest
  end.

Definition sign (d : Z) (data : bytes) (algorithm : signature_algorithm)
    (e : list Z) : result bytes * list Z :=
  match algorithm with
  | ECDSA_Prehashed h =>
      if negb (length data =? digest_size h)%nat then
        (Err (Exception "ValueError"
                (lit "The provided data must be the same length as the hash algorithm's digest size.")),
         e)
      else if negb (in_range d) then
        (Err (Exception "ValueError" (lit "Invalid EC key.")), e)
      else sign_loop d (digest_int data) e
  | ECDSA_Hash _ =>
      (Err (Exception "UnsupportedAlgorithm"
              (lit "This instance only signs prehashed data.")), e)
  end.

Definition load (data : bytes) : result Z :=
  match data with
  | [b] =>
      let d := Z.of_N (Byte.to_N b) in
      if in_range d then Ok d
      else Err (Exception "ValueError" (lit "Could not deserialize key data."))
  | _ => Err (Exception "ValueError" (lit "Could not deserialize key data."))
  end.

Definition verify_int (Q : point) (signature : bytes) (z : Z) : bool :=
  match List.map Byte.to_N signature with
  | [48; 6; 2; 1; rb; 2; 1; sb]%N =>
      let r := Z.of_N rb in
      let s := Z.of_N sb in
      in_range r && in_range s &&
      let w := inv_mod s n in
      match add (mul ((z * w) mod n) G) (mul ((r * w) mod n) Q) with
      | Some (x, _) => x mod n =? r
      | None => false
      end
  | _ => false
  end.

Definition verify (Q : point) (signature data : bytes)
    (algorithm : signature_algorithm) : bool :=
  match algorithm with
  | ECDSA_Prehashed h =>
      (length data =? digest_size h)%nat && verify_int Q signature (digest_int data)
  | ECDSA_Hash _ => false
  end.

#[global] Instance library : Cryptography := {|
  PrivateKey := Z;
  Entropy := list Z;
  load_pem_private_key := load;
  private_key_sign := sign
|}.

(** Every private scalar, digest value and nonce: the signature made with
    them verifies. *)
Definition range (m : nat) : list Z := List.map Z.of_nat (seq 0 m).

Definition sound_at (d z k : Z) : bool :=
  match sign_with d z k with
  | Some (r, s) => verify_int (mul d G) (der r s) z
  | None => true
  end.

Definition sound_everywhere : bool :=
  forallb (fun d => forallb (fun z => forallb (sound_at d z) (range 19))
                      (range 32)) (range 19).

End TinyEcdsa.

(** ** A model of [repr] on a [str]

    Single quotes, unless the string holds one and no double quote.  The
    quote in use and the backslash are escaped; tab, newline and carriage
    return are written with their letter, the other control characters and
    the unprintable code points of Latin-1 in hexadecimal.  Code points above
    U+00FF are taken as printable. *)
Module Repr.

Definition hex_digit (d : N) : N := if d <? 10 then 48 + d else 87 + d.

Definition escape (quote c : N) : pystr :=
  if (c =? quote) || (c =? 92) then [92; c]
  else if c =? 9 then [92; 116]
  else if c =? 10 then [92; 110]
  else if c =? 13 then [92; 114]
  else if (c <? 32) || ((127 <=? c) && (c <=? 160)) || (c =? 173) then
    [92; 120; hex_digit (c / 16); hex_digit (c mod 16)]
  else [c].

Definition repr_str (s : pystr) : pystr :=
  let quote :=
    if existsb (N.eqb 39) s && negb (existsb (N.eqb 34) s) then 34 else 39 in
  [quote] ++ flat_map (escape quote) s ++ [quote].

#[global] Instance interpreter : Interpreter := {|
  repr := repr_str
|}.

End Repr.

(** ** Concrete invocations

    Command lines and worlds for the model parser and the small ECDSA
    instance: a firmware key file holding the scalar 7, a 48-octet digest,
    and two nonces. *)
Module Examples.

Import Argparse TinyEcdsa.

Definition fw_key_path : pystr := lit "key/ast2700a1-default/own-fw-ecc-prvk.pem".

Definition digest48 : bytes := repeat x50 48.

Definition digest3 : bytes := [x01; x02; x03].

Definition files : gmap pystr node :=
  <[lit "digest.bin" := File digest48]>
    (<[lit "short.bin" := File digest3]>
       (<[lit "empty.bin" := File []]>
          (<[fw_key_path := File [x07]]> ∅))).

(** Standard input holding a text that arrives in one chunk. *)
Definition one_chunk (input_text : pystr) : list chunk :=
  match input_text with
  | [] => []
  | _ => [Decoded input_text]
  end.

Definition world (input_text : pystr) (nonces : list Z) : World :=
  mkWorld files (one_chunk input_text) [] [] nonces [].

(** The key in the firmware key file, and two signatures it makes. *)
Definition fw_private_key : @PrivateKey library := 7%Z.
Definition entropy_of (nonces : list Z) : @Entropy library := nonces.

Definition argv_stdin : list pystr := [lit "--key"; lit "fw"].

Definition argv_file (path : string) : list pystr :=
  [lit "--key"; lit "fw"; lit "--by-file"; lit "--input"; lit path].

(** What the model parser makes of these command lines. *)
Definition fw_args (file_mode : bool) (path : option pystr) : Namespace :=
  mkNamespace (lit "fw") file_mode path.

(** Nothing on standard input, nonces 3 and 5. *)
Definition w_file : World := world [] [3%Z; 5%Z].

(** The hex of the 48-octet digest on standard input. *)
Definition w_hex : World := world (decode (hexlify digest48) ++ nl) [3%Z; 5%Z].

(** An odd number of hex digits on standard input. *)
Definition w_odd : World := world (lit "abc" ++ nl) [3%Z].

(** An empty line on standard input. *)
Definition w_empty_line : World := world nl [3%Z].

(** Two lines on standard input, the first one padded with spaces. *)
Definition w_two_lines : World :=
  world (lit "  5050 " ++ nl ++ lit "second line" ++ nl) [3%Z].


(** The hex of the 48-octet digest, padded with blanks, arriving in two
    chunks; the second chunk goes on after the newline, and a third chunk
    follows. *)
Definition w_chunks : World :=
  mkWorld files
    [ Decoded (lit "  " ++ decode (hexlify (repeat x50 20)));
      Decoded (decode (hexlify (repeat x50 28)) ++ lit " " ++ nl ++ lit "second");
      Decoded (lit " line" ++ nl) ]
    [] [] (entropy_of [3%Z; 5%Z]) [].

(** The hex of the 48-octet digest and a second line, in one chunk. *)
Definition w_more : World :=
  world (decode (hexlify digest48) ++ nl ++ lit "more" ++ nl) [3%Z; 5%Z].

(** The same first line, followed in its chunk by an octet that is not
    UTF-8. *)
Definition w_bad_tail : World :=
  mkWorld files
    [ Undecodable (decode (hexlify digest48) ++ nl)
        (Exception "UnicodeDecodeError"
           (lit "'utf-8' codec can't decode byte 0xff in position 97: invalid start byte")) ]
    [] [] (entropy_of [3%Z; 5%Z]) [].

(** The hex of a three-octet digest on standard input. *)
Definition w_short_hex : World := world (lit "010203" ++ nl) [3%Z].

(** Nothing on standard input, no entropy. *)
Definition w_idle : World := world [] [].

(** The same files and a directory [out]. *)
Definition w_dir : World :=
  mkWorld (<[lit "out" := Dir]> files) [] [] [] (entropy_of [3%Z]) [].

(** The same files and a directory whose name holds an apostrophe. *)
Definition w_quoted_dir : World :=
  mkWorld (<[lit "o'ut" := Dir]> files) [] [] [] (entropy_of [3%Z]) [].

(** [--key man] on the command line; no manufacturer key file is installed. *)
Definition argv_man : list pystr := [lit "--key"; lit "man"].

Definition man_args : Namespace := mkNamespace (lit "man") false None.

Definition man_key_path : pystr := lit "key/ast2700a1-default/own-man-ecc-prvk.pem".

End Examples.

(** * Properties *)

Section Properties.

Context {argparse : ArgumentParser} {cryptography : Cryptography}
        {interpreter : Interpreter}.

Implicit Types (w : World) (args : Namespace) (argv : list pystr).

(** ** Messages *)

Lemma lit_length (s : string) : length (lit s) = String.length s.
Proof.
  unfold lit. rewrite length_map.
  induction s as [|c s IH]; [reflexivity|]. cbn. now rewrite IH.
Qed.

Lemma man_is_not_fw : lit "man" <> lit "fw".
Proof. discriminate. Qed.

(** Literals stay folded in the proofs below. *)
Opaque lit.

(** A text that contains a non-empty literal is not empty. *)
Ltac nonempty_by_length :=
  let H := fresh in
  intros H; apply (f_equal (@length N)) in H;
  repeat (rewrite length_app in H || rewrite lit_length in H);
  cbn [String.length length nl] in H; lia.

Lemma format_exception_nonempty (ex : exn) : format_exception ex <> [].
Proof. destruct ex as [cls msg]. unfold format_exception. nonempty_by_length. Qed.

Ltac nonempty := first [apply format_exception_nonempty | nonempty_by_length].

(** ** Symbolic execution *)

Ltac unfold_monad :=
  unfold call, raise, sys_exit, sys_stderr_write, sys_stdout_write in *;
  unfold mbind, mret, M_bind, M_ret in *;
  cbn [fs stdin stdout stderr entropy trace set_fs set_stdin set_stdout
       set_stderr set_entropy log fst snd negb
       mbind mret M_bind M_ret call raise] in *.

(** Projections of updated worlds. *)
Ltac world_simpl :=
  cbn [fs stdin stdout stderr entropy trace set_fs set_stdin set_stdout
       set_stderr set_entropy log fst snd negb] in *.

Lemma sign_digest_cases (digest : bytes) (key_path : pystr) w :
  sign_digest digest key_path w =
  let w1 := log (EvOpen key_path Rb) w in
  match fs w !! key_path with
  | Some (File pem) =>
      match load_pem_private_key pem with
      | Ok private_key =>
          let w2 := log (EvLoadKey pem (Ok private_key)) w1 in
          match private_key_sign private_key digest (ECDSA_Prehashed SHA384)
                  (entropy w) with
          | (Ok signature, e) =>
              (Ret signature,
               log (EvSign private_key digest (ECDSA_Prehashed SHA384)
                      (Ok signature)) (set_entropy e w2))
          | (Err ex, e) =>
              (Raise ex,
               log (EvSign private_key digest (ECDSA_Prehashed SHA384)
                      (Err ex)) (set_entropy e w2))
          end
      | Err ex => (Raise ex, log (EvLoadKey pem (Err ex)) w1)
      end
  | Some Dir =>
      (Raise (errno_error "IsADirectoryError" "[Errno 21] Is a directory"
                key_path), w1)
  | None =>
      (Raise (errno_error "FileNotFoundError"
                "[Errno 2] No such file or directory" key_path), w1)
  end.
Proof.
  unfold sign_digest, open_rb_read, serialization_load_pem_private_key, sign.
  unfold_monad. world_simpl.
  destruct (fs w !! key_path) as [[pem|]|]; try reflexivity.
  destruct (load_pem_private_key pem) as [k|ex]; try reflexivity.
  world_simpl.
  destruct (private_key_sign k digest (ECDSA_Prehashed SHA384) (entropy w))
    as [[s|ex] e]; reflexivity.
Qed.

(** [sign_digest] touches neither the files nor the standard streams, and
    only adds events. *)
Lemma sign_digest_frame (digest : bytes) (key_path : pystr) w r w' :
  sign_digest digest key_path w = (r, w') ->
  fs w' = fs w /\ stdin w' = stdin w /\ stdout w' = stdout w
  /\ stderr w' = stderr w /\ exists evs, trace w' = trace w ++ evs.
Proof.
  rewrite sign_digest_cases. cbv zeta.
  destruct (fs w !! key_path) as [[pem|]|].
  2,3: intros [= <- <-]; world_simpl; eauto 10.
  destruct (load_pem_private_key pem) as [k|ex].
  2: intros [= <- <-]; world_simpl; rewrite <- app_assoc; eauto 10.
  destruct (private_key_sign k digest (ECDSA_Prehashed SHA384) (entropy w))
    as [[s|ex] e]; intros [= <- <-]; world_simpl; rewrite <- !app_assoc; eauto 10.
Qed.

Lemma main_select_key_spec args w :
  main_select_key args w =
  match spec_key_path (key args) with
  | Some key_path => (Ret key_path, w)
  | None =>
      (Exit 1, set_stderr (stderr w ++ lit "Unknown key type: " ++ key args ++ nl) w)
  end.
Proof.
  unfold main_select_key, spec_key_path.
  repeat case_bool_decide; reflexivity.
Qed.

Lemma script_parsed argv args w :
  parse_args argv = Parsed args ->
  script argv w =
  match spec_key_path (key args) with
  | Some key_path => run (main_dispatch key_path args) w
  | None =>
      (1%Z, set_stderr (stderr w ++ lit "Unknown key type: " ++ key args ++ nl) w)
  end.
Proof.
  intros Hp. unfold script, run, main, parser_parse_args. rewrite Hp.
  unfold_monad. rewrite main_select_key_spec.
  destruct (spec_key_path (key args)); reflexivity.
Qed.

(** A stripped first line that is not empty was read and decoded. *)
Lemma first_line_stripped_ok w :
  first_line_stripped w <> [] ->
  exists line, first_line w = Ok line /\ first_line_stripped w = strip line.
Proof.
  unfold first_line_stripped.
  destruct (first_line w) as [line|ex]; [eauto | contradiction].
Qed.

(** What ends standard error when no digest was read: the traceback of the
    decoding error, or the message of the script. *)
Lemma no_digest_report_nonempty w :
  match first_line w with
  | Err ex => format_exception ex
  | Ok _ => lit "Error: No digest provided via stdin" ++ nl
  end <> [].
Proof. destruct (first_line w); nonempty. Qed.

Ltac nonempty ::=
  first [apply format_exception_nonempty | apply no_digest_report_nonempty
        | nonempty_by_length].

(** The stdin flow as a process, step by step. *)
Lemma run_sign_from_stdin (key_path : pystr) w :
  run (sign_from_stdin key_path) w =
  let w0 := set_stdin (unread w) w in
  let digest_hex := first_line_stripped w in
  if negb (truthy digest_hex) then
    (1%Z,
     set_stderr
       (stderr w ++ match first_line w with
                    | Err ex => format_exception ex
                    | Ok _ => lit "Error: No digest provided via stdin" ++ nl
                    end) w0)
  else
    match unhexlify digest_hex with
    | Err ex => (1%Z, set_stderr (stderr w ++ format_exception ex) w0)
    | Ok digest =>
        let w1 :=
          set_stderr (stderr w ++ lit "[STDIN MODE] Signing digest:" ++ nl
                      ++ lit " " ++ digest_hex ++ nl) w0 in
        match sign_digest digest key_path w1 with
        | (Ret signature, w2) =>
            let sig_hex := decode (hexlify signature) in
            (0%Z,
             set_stdout (stdout w2 ++ sig_hex ++ nl)
               (set_stderr
                  (stderr w2 ++ lit "Signature generated (DER hex): "
                   ++ sig_hex ++ nl) w2))
        | (Exit code, w2) => (code, w2)
        | (Raise ex, w2) => (1%Z, set_stderr (stderr w2 ++ format_exception ex) w2)
        end
    end.
Proof.
  unfold run, sign_from_stdin, sys_stdin_readline, first_line_stripped,
    first_line, unread.
  unfold_monad.
  destruct (readline [] (stdin w)) as [[line|ex0] rest]; world_simpl;
    cbn [truthy negb]; [|reflexivity].
  destruct (truthy (strip line)); world_simpl; [|reflexivity].
  destruct (unhexlify (strip line)) as [digest|ex]; world_simpl; [|reflexivity].
  match goal with |- context [sign_digest ?d ?k ?x] =>
    destruct (sign_digest d k x) as [[sg|c|ex] w2] end; reflexivity.
Qed.

(** The file flow as a process, step by step. *)
Lemma run_sign_by_file (key_path input_path : pystr) w :
  run (sign_by_file key_path input_path) w =
  match fs w !! input_path with
  | None =>
      (1%Z,
       set_stderr (stderr w ++ lit "Error: input file '" ++ input_path
                   ++ lit "' does not exist" ++ nl) w)
  | Some Dir =>
      let w0 := log (EvOpen input_path Rb) w in
      (1%Z,
       set_stderr
         (stderr w ++ format_exception
            (errno_error "IsADirectoryError" "[Errno 21] Is a directory"
               input_path)) w0)
  | Some (File digest) =>
      let w1 :=
        set_stderr (stderr w ++ lit "[FILE MODE] Signing digest from file: "
                    ++ input_path ++ nl) (log (EvOpen input_path Rb) w) in
      match sign_digest digest key_path w1 with
      | (Ret signature, w2) =>
          (0%Z,
           set_stderr
             (stderr w2 ++ lit "Signature written back to file: "
              ++ input_path ++ nl)
             (set_fs (<[input_path := File signature]> (fs w2))
                (log (EvOpen input_path Wb) w2)))
      | (Exit code, w2) => (code, w2)
      | (Raise ex, w2) => (1%Z, set_stderr (stderr w2 ++ format_exception ex) w2)
      end
  end.
Proof.
  unfold run, sign_by_file, os_path_exists, open_rb_read, open_wb_write.
  unfold_monad. world_simpl.
  destruct (fs w !! input_path) as [[digest|]|] eqn:Hin;
    cbn [bool_decide decide_rel is_Some_dec negb]; unfold_monad;
    rewrite ?Hin; unfold_monad.
  - match goal with |- context [sign_digest ?d ?k ?x] =>
      destruct (sign_digest d k x) as [[sg|c|ex] w2] eqn:Hs end; try reflexivity.
    apply sign_digest_frame in Hs as (Hfs & _). unfold_monad.
    rewrite Hfs, Hin. reflexivity.
  - reflexivity.
  - reflexivity.
Qed.

(** [main] past the key selection, in file mode. *)
Lemma run_main_dispatch_file (key_path : pystr) args w :
  by_file args = true ->
  run (main_dispatch key_path args) w =
  match input args with
  | Some (c :: p) =>
      run (sign_by_file key_path (c :: p))
        (set_stderr (stderr w ++ lit "Using input file: " ++ (c :: p) ++ nl) w)
  | _ =>
      (1%Z,
       set_stderr
         (stderr w ++ lit "Error: --input <path> is required when using --by-file"
          ++ nl) w)
  end.
Proof.
  intros Hb. unfold main_dispatch. rewrite Hb.
  destruct (input args) as [[|c p]|]; reflexivity.
Qed.

Lemma run_main_dispatch_stdin (key_path : pystr) args w :
  by_file args = false ->
  run (main_dispatch key_path args) w = run (sign_from_stdin key_path) w.
Proof. intros Hb. unfold main_dispatch. rewrite Hb. reflexivity. Qed.

(** What [sign_digest] returns depends on the key file and the entropy only. *)
Lemma sign_digest_outcome (digest : bytes) (key_path : pystr) w1 w2 :
  fs w1 = fs w2 -> entropy w1 = entropy w2 ->
  fst (sign_digest digest key_path w1) = fst (sign_digest digest key_path w2).
Proof.
  intros Hf He. rewrite !sign_digest_cases. cbv zeta. rewrite Hf, He.
  destruct (fs w2 !! key_path) as [[pem|]|]; try reflexivity.
  destruct (load_pem_private_key pem) as [k|ex]; try reflexivity.
  destruct (private_key_sign k digest (ECDSA_Prehashed SHA384) (entropy w2))
    as [[s|ex] e]; reflexivity.
Qed.

(** [sign_digest] never calls [sys.exit]. *)
Lemma sign_digest_no_exit (digest : bytes) (key_path : pystr) w code w' :
  sign_digest digest key_path w <> (Exit code, w').
Proof.
  rewrite sign_digest_cases. cbv zeta.
  destruct (fs w !! key_path) as [[pem|]|]; try discriminate.
  destruct (load_pem_private_key pem) as [k|ex]; try discriminate.
  destruct (private_key_sign k digest (ECDSA_Prehashed SHA384) (entropy w))
    as [[s|ex] e]; discriminate.
Qed.

(** ** Hexadecimal strings *)

Lemma list_pair_ind {A : Type} (P : list A -> Prop) :
  P [] -> (forall a, P [a]) -> (forall a b r, P r -> P (a :: b :: r)) ->
  forall l, P l.
Proof.
  intros H0 H1 H2.
  assert (H : forall l, P l /\ forall a, P (a :: l)).
  { induction l as [|b l [IH1 IH2]]; split; auto. }
  intros l. apply H.
Qed.

Lemma a2b_pairs_ok (s : pystr) :
  Nat.even (length s) = true ->
  forallb (fun c => bool_decide (is_Some (hex_value c))) s = true ->
  exists bs, a2b_pairs s = Ok bs.
Proof.
  induction s as [|a|a b r IH] using list_pair_ind; intros He Hd.
  - eexists; reflexivity.
  - discriminate.
  - cbn [forallb] in Hd. apply andb_true_iff in Hd as [Ha Hd].
    apply andb_true_iff in Hd as [Hb Hd].
    apply bool_decide_eq_true in Ha as [h Ha].
    apply bool_decide_eq_true in Hb as [l Hb].
    destruct (IH He Hd) as [bs Hbs].
    cbn [a2b_pairs]. rewrite Ha, Hb, Hbs. eexists; reflexivity.
Qed.

Lemma a2b_pairs_err (s : pystr) :
  Nat.even (length s) = true ->
  forallb (fun c => bool_decide (is_Some (hex_value c))) s = false ->
  exists ex, a2b_pairs s = Err ex.
Proof.
  induction s as [|a|a b r IH] using list_pair_ind; intros He Hd.
  - discriminate.
  - discriminate.
  - cbn [a2b_pairs].
    destruct (hex_value a) as [h|] eqn:Ha; [|eexists; reflexivity].
    destruct (hex_value b) as [l|] eqn:Hb; [|eexists; reflexivity].
    cbn [forallb] in Hd. rewrite Ha, Hb in Hd.
    rewrite !bool_decide_eq_true_2 in Hd by eauto. cbn [andb] in Hd.
    destruct (IH He Hd) as [ex Hex]. rewrite Hex. eexists; reflexivity.
Qed.

(** [unhexlify] accepts exactly the valid hexadecimal strings. *)
Lemma unhexlify_invalid (s : pystr) :
  valid_hex s = false -> exists ex, unhexlify s = Err ex.
Proof.
  unfold valid_hex, unhexlify. intros Hv.
  destruct (forallb (fun c => c <? 128) s); cbn [negb]; [|eexists; reflexivity].
  rewrite <- Nat.negb_even.
  destruct (Nat.even (length s)) eqn:He; cbn [negb]; [|eexists; reflexivity].
  cbn [andb] in Hv. apply a2b_pairs_err; assumption.
Qed.

Lemma unhexlify_valid (s : pystr) (bs : bytes) :
  unhexlify s = Ok bs -> valid_hex s = true.
Proof.
  destruct (valid_hex s) eqn:Hv; [reflexivity|].
  destruct (unhexlify_invalid s Hv) as [ex ->]. discriminate.
Qed.

(** The script in file mode, from the command line to [sign_by_file]. *)
Lemma script_file_mode argv args (key_path input_path : pystr) w :
  parse_args argv = Parsed args ->
  spec_key_path (key args) = Some key_path ->
  by_file args = true ->
  input args = Some input_path ->
  input_path <> [] ->
  script argv w =
  run (sign_by_file key_path input_path)
    (set_stderr (stderr w ++ lit "Using input file: " ++ input_path ++ nl) w).
Proof.
  intros Hp Hk Hb Hi Hne.
  rewrite (script_parsed _ _ _ Hp), Hk, run_main_dispatch_file, Hi by assumption.
  destruct input_path; [contradiction | reflexivity].
Qed.

(** The script in stdin mode, from the command line to [sign_from_stdin]. *)
Lemma script_stdin_mode argv args (key_path : pystr) w :
  parse_args argv = Parsed args ->
  spec_key_path (key args) = Some key_path ->
  by_file args = false ->
  script argv w = run (sign_from_stdin key_path) w.
Proof.
  intros Hp Hk Hb.
  rewrite (script_parsed _ _ _ Hp), Hk, run_main_dispatch_stdin by assumption.
  reflexivity.
Qed.

(** ** File mode *)

(** C1.  In file mode, with an existing input file, the script reads the
    whole file as the digest, has the library sign it with the key loaded
    from the selected key file, and exits with status 0 leaving the file
    system as it was except that the input file now holds exactly the
    signature the library returned; nothing is written to standard output.
    The hypotheses on the key file and on the library call say that the
    signing the claim speaks of takes place. *)
Theorem file_mode_overwrites_input
    argv args (key_path input_path : pystr) (digest pem : bytes)
    (private_key : PrivateKey) (signature : bytes) (e' : Entropy) w :
  parse_args argv = Parsed args ->
  spec_key_path (key args) = Some key_path ->
  by_file args = true ->
  input args = Some input_path ->
  input_path <> [] ->
  fs w !! input_path = Some (File digest) ->
  fs w !! key_path = Some (File pem) ->
  load_pem_private_key pem = Ok private_key ->
  private_key_sign private_key digest (ECDSA_Prehashed SHA384) (entropy w)
    = (Ok signature, e') ->
  exists wf,
    script argv w = (0%Z, wf)
    /\ fs wf = <[input_path := File signature]> (fs w)
    /\ trace wf =
         trace w ++
         [ EvOpen input_path Rb; EvOpen key_path Rb;
           EvLoadKey pem (Ok private_key);
           EvSign private_key digest (ECDSA_Prehashed SHA384) (Ok signature);
           EvOpen input_path Wb ]
    /\ stdout wf = stdout w
    /\ stdin wf = stdin w.
Proof.
  intros Hp Hk Hb Hi Hne Hin Hkey Hload Hsign.
  rewrite (script_file_mode _ _ _ _ _ Hp Hk Hb Hi Hne).
  rewrite run_sign_by_file. world_simpl. rewrite Hin. cbv zeta.
  rewrite sign_digest_cases. world_simpl. rewrite Hkey, Hload. cbv zeta.
  world_simpl. rewrite Hsign.
  eexists. split; [reflexivity|]. world_simpl.
  rewrite <- !app_assoc. auto.
Qed.

(** ** Stdin mode *)


(** C7.  In stdin mode, when the stripped first line is non-empty but is not
    valid hex (odd length, or a character that is not a hex digit), the
    script exits with status 1; standard output, the files and the trace of
    library calls are untouched. *)
Theorem stdin_mode_rejects_malformed_hex argv args w :
  parse_args argv = Parsed args ->
  by_file args = false ->
  first_line_stripped w <> [] ->
  valid_hex (first_line_stripped w) = false ->
  exists wf,
    script argv w = (1%Z, wf)
    /\ stdout wf = stdout w /\ fs wf = fs w /\ trace wf = trace w.
Proof.
  intros Hp Hb Hne Hv.
  rewrite (script_parsed _ _ _ Hp).
  destruct (spec_key_path (key args)) as [key_path|].
  - rewrite run_main_dispatch_stdin, run_sign_from_stdin by assumption.
    cbv zeta.
    destruct (first_line_stripped w) as [|c l] eqn:Hl; [contradiction|].
    cbn [truthy negb].
    destruct (unhexlify_invalid _ Hv) as [ex ->].
    eexists. split; [reflexivity|]. world_simpl. auto.
  - eexists. split; [reflexivity|]. world_simpl. auto.
Qed.

(** ** Lines and whitespace *)

Lemma split_line_newline (line after : pystr) :
  existsb (N.eqb 10) line = false ->
  split_line (line ++ nl ++ after) = (line ++ nl, after).
Proof.
  induction line as [|c line IH]; cbn [app existsb split_line]; intros H.
  - reflexivity.
  - apply orb_false_iff in H as [Hc H]. rewrite N.eqb_sym, Hc, (IH H).
    reflexivity.
Qed.

Lemma existsb_newline (line after : pystr) :
  existsb (N.eqb 10) (line ++ nl ++ after) = true.
Proof.
  rewrite existsb_app. cbn [nl app existsb]. rewrite N.eqb_refl.
  apply orb_true_r.
Qed.

(** A line spread over several chunks: [readline] reads up to the chunk
    that brings the newline, and no further. *)
Lemma readline_pieces (read : pystr) (pieces : list pystr)
    (piece after : pystr) (rest : list chunk) :
  existsb (N.eqb 10) (concat pieces ++ piece) = false ->
  readline read (List.map Decoded pieces ++ Decoded (piece ++ nl ++ after) :: rest)
  = (Ok (read ++ concat pieces ++ piece ++ nl), rest).
Proof.
  revert read. induction pieces as [|p pieces IH]; intros read H;
    cbn [List.map app concat readline] in *.
  - rewrite existsb_newline, split_line_newline by exact H. reflexivity.
  - rewrite <- app_assoc, existsb_app in H.
    apply orb_false_iff in H as [Hp H].
    rewrite Hp, (IH _ H), <- !app_assoc. reflexivity.
Qed.


Lemma blank_isspace (c : N) : blank c = true -> isspace c = true.
Proof.
  unfold blank. intros H. apply existsb_exists in H as (d & Hd & Hc).
  apply N.eqb_eq in Hc. subst d.
  repeat (destruct Hd as [<-|Hd]; [reflexivity|]). destruct Hd.
Qed.

Lemma forallb_blank_isspace (s : pystr) :
  forallb blank s = true -> forallb isspace s = true.
Proof.
  rewrite !forallb_forall. intros H c Hc. apply blank_isspace, H, Hc.
Qed.

Lemma lstrip_spaces_app (ws s : pystr) :
  forallb isspace ws = true -> lstrip (ws ++ s) = lstrip s.
Proof.
  induction ws as [|c ws IH]; cbn [app forallb lstrip]; [reflexivity|].
  intros H. apply andb_true_iff in H as [-> H]. exact (IH H).
Qed.

Lemma rstrip_app_spaces (s ws : pystr) :
  forallb isspace ws = true -> rstrip (s ++ ws) = rstrip s.
Proof.
  intros H. unfold rstrip. rewrite rev_app_distr, lstrip_spaces_app;
    [reflexivity|].
  rewrite forallb_forall in *. intros c Hc. apply H, in_rev, Hc.
Qed.

Lemma strip_app_spaces (s ws : pystr) :
  forallb isspace ws = true -> strip (s ++ ws) = strip s.
Proof.
  intros H. induction s as [|c s IH].
  - unfold strip. cbn [app]. rewrite <- (app_nil_r ws) at 1.
    rewrite lstrip_spaces_app by exact H. reflexivity.
  - unfold strip in *. cbn [app lstrip]. destruct (isspace c); [exact IH|].
    change (c :: s ++ ws) with ((c :: s) ++ ws).
    apply rstrip_app_spaces, H.
Qed.

(** Blanks around the text of a line, and its newline, are stripped. *)
Lemma strip_padded_line (pre h post : pystr) :
  forallb blank pre = true -> forallb blank post = true ->
  strip (pre ++ h ++ post ++ nl) = strip h.
Proof.
  intros Hpre Hpost. unfold strip at 1.
  rewrite lstrip_spaces_app by (apply forallb_blank_isspace, Hpre).
  fold (strip (h ++ post ++ nl)). apply strip_app_spaces.
  rewrite forallb_app, (forallb_blank_isspace _ Hpost). reflexivity.
Qed.

Lemma isspace_range (c : N) : isspace c = true -> c <= 32 \/ 133 <= c.
Proof.
  unfold isspace.
  rewrite !orb_true_iff, !andb_true_iff, !N.leb_le, !N.eqb_eq. lia.
Qed.

Lemma hex_value_range (c v : N) : hex_value c = Some v -> 48 <= c <= 102.
Proof.
  unfold hex_value.
  destruct ((48 <=? c) && (c <=? 57)) eqn:H1.
  { apply andb_true_iff in H1 as [H1 H2]. apply N.leb_le in H1, H2. lia. }
  destruct ((97 <=? c) && (c <=? 102)) eqn:H2.
  { apply andb_true_iff in H2 as [H2 H3]. apply N.leb_le in H2, H3. lia. }
  destruct ((65 <=? c) && (c <=? 70)) eqn:H3; [|discriminate].
  apply andb_true_iff in H3 as [H3 H4]. apply N.leb_le in H3, H4. lia.
Qed.

Lemma lstrip_digits (s : pystr) :
  Forall (fun c => 48 <= c <= 102) s -> lstrip s = s.
Proof.
  intros Hs. destruct Hs as [|c s Hc Hs]; [reflexivity|].
  cbn [lstrip]. destruct (isspace c) eqn:Hsp; [|reflexivity].
  apply isspace_range in Hsp. lia.
Qed.

(** Stripping leaves a hex string as it is. *)
Lemma strip_hex (h : pystr) (digest : bytes) :
  unhexlify h = Ok digest -> strip h = h.
Proof.
  intros Hhex. apply unhexlify_valid in Hhex. unfold valid_hex in Hhex.
  apply andb_true_iff in Hhex as [_ Hd].
  assert (Hs : Forall (fun c => 48 <= c <= 102) h).
  { rewrite forallb_forall in Hd. apply List.Forall_forall. intros c Hc.
    specialize (Hd c Hc). apply bool_decide_eq_true in Hd as [v Hv].
    eapply hex_value_range. exact Hv. }
  unfold strip, rstrip. rewrite (lstrip_digits _ Hs).
  rewrite lstrip_digits by (apply Forall_rev; exact Hs).
  apply rev_involutive.
Qed.

Lemma signed_digests_app (l1 l2 : list event) :
  signed_digests (l1 ++ l2) = signed_digests l1 ++ signed_digests l2.
Proof. unfold signed_digests. apply flat_map_app. Qed.

Lemma sign_digest_set_stdin (digest : bytes) (key_path : pystr)
    (chunks : list chunk) w :
  sign_digest digest key_path (set_stdin chunks w) =
  (fst (sign_digest digest key_path w),
   set_stdin chunks (snd (sign_digest digest key_path w))).
Proof.
  rewrite !sign_digest_cases. cbv zeta. world_simpl.
  destruct (fs w !! key_path) as [[pem|]|]; try reflexivity.
  destruct (load_pem_private_key pem) as [k|ex]; try reflexivity.
  destruct (private_key_sign k digest (ECDSA_Prehashed SHA384) (entropy w))
    as [[sg|ex] e]; reflexivity.
Qed.

(** C10, as the code has it.  In stdin mode the script uses exactly one line
    of standard input.  Let the first line be [pre ++ h ++ post] and a
    newline, with [pre] and [post] made of blanks; it may arrive in several
    chunks that decode, the chunk that brings the newline may hold more
    text [after] it, and more chunks [rest] may follow.  Then the run is the
    run on the single line [h]: same status, same output, same calls.
    The blanks and the newline are stripped before the hex is decoded: with
    a loadable key, the digest handed to the signing call is the decoding of
    [h].  The text [after] is read from the descriptor along with the line
    and never used; the chunks [rest] are left unread. *)
Theorem stdin_mode_reads_one_line
    argv args (key_path : pystr) w
    (pieces : list pystr) (piece after : pystr) (rest : list chunk)
    (pre h post : pystr) :
  parse_args argv = Parsed args ->
  spec_key_path (key args) = Some key_path ->
  by_file args = false ->
  stdin w = List.map Decoded pieces ++ Decoded (piece ++ nl ++ after) :: rest ->
  concat pieces ++ piece = pre ++ h ++ post ->
  existsb (N.eqb 10) (pre ++ h ++ post) = false ->
  forallb blank pre = true ->
  forallb blank post = true ->
  script argv w =
  (fst (script argv (set_stdin [Decoded (h ++ nl)] w)),
   set_stdin rest (snd (script argv (set_stdin [Decoded (h ++ nl)] w))))
  /\ forall (digest pem : bytes) (private_key : PrivateKey),
       h <> [] ->
       unhexlify h = Ok digest ->
       fs w !! key_path = Some (File pem) ->
       load_pem_private_key pem = Ok private_key ->
       signed_digests (trace (snd (script argv w)))
       = signed_digests (trace w) ++ [digest].
Proof.
  intros Hp Hk Hb Hin Hline Hnl Hpre Hpost.
  assert (Hh : existsb (N.eqb 10) h = false).
  { rewrite !existsb_app in Hnl.
    apply orb_false_iff in Hnl as [_ Hnl].
    apply orb_false_iff in Hnl as [Hnl _]. exact Hnl. }
  assert (Hr : readline [] (stdin w) = (Ok (pre ++ h ++ post ++ nl), rest)).
  { rewrite Hin, readline_pieces by (rewrite Hline; exact Hnl).
    cbn [app]. rewrite app_assoc, Hline, <- !app_assoc. reflexivity. }
  assert (Hr' : readline [] [Decoded (h ++ nl)] = (Ok (h ++ nl), [])).
  { pose proof (readline_pieces [] [] h [] [] Hh) as H.
    cbn [List.map concat app] in H. rewrite !app_nil_r in H. exact H. }
  assert (Hs : first_line_stripped w = strip h).
  { unfold first_line_stripped, first_line. rewrite Hr. cbn [fst].
    apply strip_padded_line; assumption. }
  assert (Hs' : first_line_stripped (set_stdin [Decoded (h ++ nl)] w) = strip h).
  { unfold first_line_stripped, first_line. world_simpl. rewrite Hr'.
    cbn [fst]. rewrite <- (app_nil_l (h ++ nl)), <- (app_nil_l nl) at 1.
    rewrite app_nil_l. apply (strip_padded_line [] h []); reflexivity. }
  split.
  - rewrite !(script_stdin_mode _ _ _ _ Hp Hk Hb), !run_sign_from_stdin.
    cbv zeta. rewrite Hs, Hs'. unfold first_line, unread. world_simpl.
    rewrite Hr, Hr'. cbn [fst snd].
    destruct (truthy (strip h)); cbn [negb]; [|reflexivity].
    destruct (unhexlify (strip h)) as [digest|ex]; [|reflexivity].
    repeat match goal with
    | |- context [sign_digest _ _ (set_stderr ?m (set_stdin ?t (set_stdin ?t' w)))] =>
        change (set_stderr m (set_stdin t (set_stdin t' w)))
          with (set_stdin t (set_stderr m w))
    | |- context [sign_digest _ _ (set_stderr ?m (set_stdin ?t w))] =>
        change (set_stderr m (set_stdin t w)) with (set_stdin t (set_stderr m w))
    end.
    rewrite !sign_digest_set_stdin.
    match goal with |- context [sign_digest digest key_path ?x] =>
      destruct (sign_digest digest key_path x) as [[sg|c'|ex] w2]
    end; cbn [fst snd]; reflexivity.
  - intros digest pem private_key Hne Hhex Hkey Hload.
    rewrite (script_stdin_mode _ _ _ _ Hp Hk Hb), run_sign_from_stdin.
    cbv zeta. rewrite Hs, (strip_hex _ _ Hhex).
    destruct h as [|c l]; [contradiction|]. cbn [truthy negb]. rewrite Hhex.
    rewrite sign_digest_cases. world_simpl. rewrite Hkey, Hload. cbv zeta.
    world_simpl.
    destruct (private_key_sign private_key digest (ECDSA_Prehashed SHA384)
                (entropy w)) as [[sg|ex] e]; world_simpl;
      rewrite <- !app_assoc, signed_digests_app; reflexivity.
Qed.

(** ** Failures *)

(** How each flow ends: the status is 0 or 1, and a failure reports on
    standard error and leaves the files alone. *)
Lemma run_sign_from_stdin_status (key_path : pystr) w code wf :
  run (sign_from_stdin key_path) w = (code, wf) ->
  (code = 0%Z \/ code = 1%Z)
  /\ (code <> 0%Z ->
      fs wf = fs w /\ stdout wf = stdout w
      /\ exists message, message <> [] /\ stderr wf = stderr w ++ message).
Proof.
  rewrite run_sign_from_stdin. cbv zeta.
  destruct (truthy (first_line_stripped w)); cbn [negb].
  2: { intros [= <- <-]. split; [auto|]. intros _. world_simpl.
       repeat split. eexists. split; [|reflexivity]. nonempty. }
  destruct (unhexlify (first_line_stripped w)) as [digest|ex].
  2: { intros [= <- <-]. split; [auto|]. intros _. world_simpl.
       repeat split. eexists. split; [|reflexivity]. nonempty. }
  match goal with |- context [sign_digest digest key_path ?x] =>
    destruct (sign_digest digest key_path x) as [[sg|c'|ex] w2] eqn:Hs end.
  - intros [= <- <-]. split; [auto|]. intros H; contradiction.
  - exfalso. eapply sign_digest_no_exit; eassumption.
  - apply sign_digest_frame in Hs as (Hfs & _ & Hout & Herr & _).
    world_simpl. intros [= <- <-]. split; [auto|]. intros _. world_simpl.
    rewrite Herr, <- app_assoc. repeat split; [assumption..|].
    eexists. split; [|reflexivity]. nonempty.
Qed.

Lemma run_sign_by_file_status (key_path input_path : pystr) w code wf :
  run (sign_by_file key_path input_path) w = (code, wf) ->
  (code = 0%Z \/ code = 1%Z)
  /\ (code <> 0%Z ->
      fs wf = fs w /\ stdout wf = stdout w
      /\ exists message, message <> [] /\ stderr wf = stderr w ++ message).
Proof.
  rewrite run_sign_by_file.
  destruct (fs w !! input_path) as [[digest|]|]; cbv zeta.
  - match goal with |- context [sign_digest digest key_path ?x] =>
      destruct (sign_digest digest key_path x) as [[sg|c'|ex] w2] eqn:Hs end.
    + intros [= <- <-]. split; [auto|]. intros H; contradiction.
    + exfalso. eapply sign_digest_no_exit; eassumption.
    + apply sign_digest_frame in Hs as (Hfs & _ & Hout & Herr & _).
      world_simpl. intros [= <- <-]. split; [auto|]. intros _. world_simpl.
      rewrite Herr, <- app_assoc. repeat split; [assumption..|].
      eexists. split; [|reflexivity]. nonempty.
  - intros [= <- <-]. split; [auto|]. intros _. world_simpl.
    repeat split. eexists. split; [|reflexivity]. nonempty.
  - intros [= <- <-]. split; [auto|]. intros _. world_simpl.
    repeat split. eexists. split; [|reflexivity]. nonempty.
Qed.

Lemma run_main_dispatch_status (key_path : pystr) args w code wf :
  run (main_dispatch key_path args) w = (code, wf) ->
  (code = 0%Z \/ code = 1%Z)
  /\ (code <> 0%Z ->
      fs wf = fs w /\ stdout wf = stdout w
      /\ exists message, message <> [] /\ stderr wf = stderr w ++ message).
Proof.
  destruct (by_file args) eqn:Hb.
  - rewrite run_main_dispatch_file by assumption.
    destruct (input args) as [[|c p]|].
    1,3: intros [= <- <-]; (split; [auto|]); intros _; world_simpl;
         repeat split; eexists; (split; [|reflexivity]); nonempty.
    intros Hr. apply run_sign_by_file_status in Hr as [Hc Hf].
    split; [assumption|]. intros Hne.
    destruct (Hf Hne) as (Hfs & Hout & m & Hm & Herr). world_simpl.
    repeat split; [assumption..|].
    rewrite Herr, <- app_assoc. eexists. split; [|reflexivity]. nonempty.
  - rewrite run_main_dispatch_stdin by assumption.
    apply run_sign_from_stdin_status.
Qed.

(** C5.  Each of the four validation errors (no digest on standard input,
    an input file that does not exist, an unknown key type, file mode
    without an input path) makes the script write a message on standard
    error and exit with status 1; it makes no library call and opens no
    file, draws no randomness, and writes nothing to standard output or to
    any file. *)
Theorem validation_errors_exit_1 argv args w :
  parse_args argv = Parsed args ->
  validation_error args w ->
  exists wf message,
    script argv w = (1%Z, wf)
    /\ message <> [] /\ stderr wf = stderr w ++ message
    /\ stdout wf = stdout w /\ fs wf = fs w
    /\ trace wf = trace w /\ entropy wf = entropy w.
Proof.
  intros Hp Hv. rewrite (script_parsed _ _ _ Hp).
  destruct (spec_key_path (key args)) as [key_path|] eqn:Hk.
  2: { do 2 eexists. split; [reflexivity|]. world_simpl.
       split; [|auto 10]. nonempty. }
  destruct Hv as [Hb Hl | input_path Hb Hi Hnone | Hk' | Hb Hi].
  - rewrite run_main_dispatch_stdin, run_sign_from_stdin by assumption.
    cbv zeta. rewrite Hl. cbn [truthy negb].
    do 2 eexists. split; [reflexivity|]. world_simpl.
    split; [|auto 10]. nonempty.
  - rewrite run_main_dispatch_file, Hi by assumption.
    destruct input_path as [|c p].
    + do 2 eexists. split; [reflexivity|]. world_simpl.
      split; [|auto 10]. nonempty.
    + rewrite run_sign_by_file. world_simpl. rewrite Hnone.
      do 2 eexists. split; [reflexivity|]. world_simpl.
      rewrite <- app_assoc. split; [|auto 10]. nonempty.
  - congruence.
  - rewrite run_main_dispatch_file by assumption.
    destruct (input args) as [[|c p]|]; [|discriminate|];
      do 2 eexists; (split; [reflexivity|]); world_simpl;
      (split; [|auto 10]); nonempty.
Qed.

(** C6, as the code has it.  Every run that ends with a non-zero status has
    written a non-empty report on standard error.  The status is 2 when
    argparse rejects the command line, and 1 in every other failure. *)
Theorem failures_exit_1_or_2 argv w code wf :
  script argv w = (code, wf) ->
  code <> 0%Z ->
  (exists message, message <> [] /\ stderr wf = stderr w ++ message)
  /\ match parse_args argv with
     | UsageError _ => code = 2%Z
     | _ => code = 1%Z
     end.
Proof.
  destruct (parse_args argv) as [args|m|] eqn:Hp.
  - rewrite (script_parsed _ _ _ Hp).
    destruct (spec_key_path (key args)) as [key_path|].
    + intros Hr Hne. apply run_main_dispatch_status in Hr as [Hc Hf].
      destruct (Hf Hne) as (_ & _ & Hm). split; [assumption|].
      destruct Hc; congruence.
    + intros [= <- <-] _. split; [|reflexivity]. world_simpl.
      eexists. split; [|reflexivity]. nonempty.
  - unfold script, run, main, parser_parse_args. rewrite Hp. unfold_monad.
    intros [= <- <-] _. split; [|reflexivity]. world_simpl.
    rewrite <- app_assoc. eexists. split; [|reflexivity]. nonempty.
  - unfold script, run, main, parser_parse_args. rewrite Hp. unfold_monad.
    intros [= <- <-] Hne. contradiction.
Qed.

(** ** Order of the calls *)

Lemma app_singleton_split {A : Type} (l pre post : list A) (x y : A) :
  l ++ [y] = pre ++ x :: post -> ~ In x l ->
  pre = l /\ x = y /\ post = [].
Proof.
  revert pre. induction l as [|a l IH]; intros pre Heq Hnot.
  - destruct pre as [|b pre]; cbn in Heq.
    + injection Heq as -> <-. auto.
    + injection Heq as _ Heq. destruct pre; discriminate.
  - destruct pre as [|b pre]; cbn in Heq.
    + injection Heq as -> _. exfalso. apply Hnot. left. reflexivity.
    + injection Heq as -> Heq.
      destruct (IH pre Heq) as (-> & -> & ->); [|auto].
      intros Hin. apply Hnot. right. exact Hin.
Qed.

Lemma writes_follow_signature_none (evs : list event) :
  (forall path, ~ In (EvOpen path Wb) evs) -> writes_follow_signature evs.
Proof.
  intros Hno pre path post ->. exfalso. apply (Hno path).
  apply in_or_app. right. left. reflexivity.
Qed.

(** The events of [sign_digest]: no file is opened for writing, and a
    returned signature was returned by the library's signing call on the
    very digest. *)
Lemma sign_digest_trace (digest : bytes) (key_path : pystr) w r w' :
  sign_digest digest key_path w = (r, w') ->
  exists evs,
    trace w' = trace w ++ evs
    /\ (forall path, ~ In (EvOpen path Wb) evs)
    /\ (forall signature, r = Ret signature ->
        exists private_key,
          In (EvSign private_key digest (ECDSA_Prehashed SHA384) (Ok signature))
             evs).
Proof.
  rewrite sign_digest_cases. cbv zeta.
  destruct (fs w !! key_path) as [[pem|]|].
  2,3: intros [= <- <-]; world_simpl; eexists; (split; [reflexivity|]);
       (split; [|discriminate]); intros path [H|[]]; discriminate.
  destruct (load_pem_private_key pem) as [k|ex].
  2: { intros [= <- <-]. world_simpl. rewrite <- app_assoc.
       eexists. split; [reflexivity|]. split; [|discriminate].
       intros path [H|[H|[]]]; discriminate. }
  destruct (private_key_sign k digest (ECDSA_Prehashed SHA384) (entropy w))
    as [[s|ex] e]; intros [= <- <-]; world_simpl; rewrite <- !app_assoc;
    (eexists; split; [reflexivity|]); split;
    try (intros path [H|[H|[H|[]]]]; discriminate); try discriminate.
  intros sg [= <-]. exists k. cbn. auto.
Qed.

Lemma run_sign_by_file_trace (key_path input_path : pystr) w code wf :
  run (sign_by_file key_path input_path) w = (code, wf) ->
  exists evs, trace wf = trace w ++ evs /\ writes_follow_signature evs.
Proof.
  rewrite run_sign_by_file.
  destruct (fs w !! input_path) as [[digest|]|]; cbv zeta.
  - match goal with |- context [sign_digest digest key_path ?x] =>
      destruct (sign_digest digest key_path x) as [[sg|c'|ex] w2] eqn:Hs end.
    + apply sign_digest_trace in Hs as (evs & Ht & Hno & Hsig).
      destruct (Hsig sg eq_refl) as [k Hk].
      intros [= <- <-]. world_simpl. rewrite Ht. world_simpl.
      exists ((EvOpen input_path Rb :: evs) ++ [EvOpen input_path Wb]).
      split; [cbn; rewrite <- !app_assoc; reflexivity|].
      intros pre path post Heq.
      apply app_singleton_split in Heq as (-> & _ & _).
      * do 3 eexists. right. exact Hk.
      * intros [H|H]; [discriminate|]. exact (Hno _ H).
    + exfalso. eapply sign_digest_no_exit; eassumption.
    + apply sign_digest_trace in Hs as (evs & Ht & Hno & _).
      intros [= <- <-]. world_simpl. rewrite Ht. world_simpl.
      exists (EvOpen input_path Rb :: evs).
      split; [rewrite <- app_assoc; reflexivity|].
      apply writes_follow_signature_none.
      intros path [H|H]; [discriminate|]. exact (Hno _ H).
  - intros [= <- <-]. world_simpl. eexists. split; [reflexivity|].
    apply writes_follow_signature_none. intros path [H|[]]; discriminate.
  - intros [= <- <-]. world_simpl. exists []. split; [now rewrite app_nil_r|].
    apply writes_follow_signature_none. intros path [].
Qed.

(** C8.  In file mode a file is opened for writing only after the library has
    returned a signature, and every run that ends in failure (the input file
    or the key file missing, the key not loading, the library refusing to
    sign, or any other error) leaves every file as it was. *)
Theorem file_mode_writes_only_after_signing argv args w code wf :
  parse_args argv = Parsed args ->
  by_file args = true ->
  script argv w = (code, wf) ->
  (code <> 0%Z -> fs wf = fs w)
  /\ exists evs, trace wf = trace w ++ evs /\ writes_follow_signature evs.
Proof.
  intros Hp Hb. rewrite (script_parsed _ _ _ Hp).
  destruct (spec_key_path (key args)) as [key_path|].
  2: { intros [= <- <-]. world_simpl. split; [reflexivity|].
       exists []. split; [now rewrite app_nil_r|].
       apply writes_follow_signature_none. intros path []. }
  intros Hr. split.
  - intros Hne. apply run_main_dispatch_status in Hr as [_ Hf].
    apply Hf, Hne.
  - rewrite run_main_dispatch_file in Hr by assumption.
    destruct (input args) as [[|c p]|].
    1,3: injection Hr as <- <-; world_simpl; exists [];
         (split; [now rewrite app_nil_r|]);
         apply writes_follow_signature_none; intros path [].
    apply run_sign_by_file_trace in Hr. exact Hr.
Qed.

(** ** The digest is passed through *)

(** C9, as the code has it.  The script never looks at the length of the
    digest.  Whatever the digest is (no hypothesis bounds its length), once the
    key has loaded the library's signing call is made on exactly these
    octets: in file mode the whole contents of the input file, of any size,
    zero included; in stdin mode the decoding of the stripped first line,
    for every non-empty valid hex string.  If the library raises, the
    exception is not caught: the status is 1, the traceback ends standard
    error, and no file changes. *)
Theorem digest_length_is_not_checked
    argv args (key_path : pystr) (digest pem : bytes)
    (private_key : PrivateKey) w :
  parse_args argv = Parsed args ->
  spec_key_path (key args) = Some key_path ->
  fs w !! key_path = Some (File pem) ->
  load_pem_private_key pem = Ok private_key ->
  (by_file args = true
   /\ exists input_path,
        input args = Some input_path /\ input_path <> []
        /\ fs w !! input_path = Some (File digest))
  \/ (by_file args = false
      /\ first_line_stripped w <> []
      /\ unhexlify (first_line_stripped w) = Ok digest) ->
  let r :=
    fst (private_key_sign private_key digest (ECDSA_Prehashed SHA384)
           (entropy w)) in
  exists code wf pre post,
    script argv w = (code, wf)
    /\ trace wf =
         trace w ++ pre
         ++ EvSign private_key digest (ECDSA_Prehashed SHA384) r :: post
    /\ forall ex, r = Err ex ->
         code = 1%Z /\ fs wf = fs w /\ stdout wf = stdout w
         /\ exists text, stderr wf = text ++ format_exception ex.
Proof.
  intros Hp Hk Hkey Hload Hmode r. subst r.
  destruct Hmode as [(Hb & input_path & Hi & Hne & Hin) | (Hb & Hne & Hhex)].
  - rewrite (script_file_mode _ _ _ _ _ Hp Hk Hb Hi Hne).
    rewrite run_sign_by_file. world_simpl. rewrite Hin. cbv zeta.
    rewrite sign_digest_cases. world_simpl. rewrite Hkey, Hload. cbv zeta.
    world_simpl.
    destruct (private_key_sign private_key digest (ECDSA_Prehashed SHA384)
                (entropy w)) as [[sg|ex] e]; cbn [fst].
    + exists 0%Z. eexists.
      exists [EvOpen input_path Rb; EvOpen key_path Rb;
              EvLoadKey pem (Ok private_key)], [EvOpen input_path Wb].
      split; [reflexivity|]. world_simpl. rewrite <- !app_assoc.
      split; [reflexivity|]. intros ex' [=].
    + exists 1%Z. eexists.
      exists [EvOpen input_path Rb; EvOpen key_path Rb;
              EvLoadKey pem (Ok private_key)], [].
      split; [reflexivity|]. world_simpl. rewrite <- !app_assoc.
      split; [reflexivity|]. intros ex' [= <-]. repeat split.
      rewrite !app_assoc. eexists. reflexivity.
  - rewrite (script_stdin_mode _ _ _ _ Hp Hk Hb), run_sign_from_stdin. cbv zeta.
    destruct (first_line_stripped w) as [|c l] eqn:Hl; [contradiction|].
    cbn [truthy negb]. rewrite Hhex.
    rewrite sign_digest_cases. world_simpl. rewrite Hkey, Hload. cbv zeta.
    world_simpl.
    destruct (private_key_sign private_key digest (ECDSA_Prehashed SHA384)
                (entropy w)) as [[sg|ex] e]; cbn [fst].
    + exists 0%Z. eexists.
      exists [EvOpen key_path Rb; EvLoadKey pem (Ok private_key)], [].
      split; [reflexivity|]. world_simpl. rewrite <- !app_assoc.
      split; [reflexivity|]. intros ex' [=].
    + exists 1%Z. eexists.
      exists [EvOpen key_path Rb; EvLoadKey pem (Ok private_key)], [].
      split; [reflexivity|]. world_simpl. rewrite <- !app_assoc.
      split; [reflexivity|]. intros ex' [= <-]. repeat split.
      rewrite !app_assoc. eexists. reflexivity.
Qed.

(** ** Key selection *)

(** C4.  [--key fw] makes the script run with the firmware key path and
    [--key man] with the manufacturer key path; any other value makes it
    write [Unknown key type: <value>] on standard error and exit with
    status 1, everything else untouched. *)
Theorem key_argument_selects_path argv args w :
  parse_args argv = Parsed args ->
  (key args = lit "fw" ->
   script argv w =
   run (main_dispatch (lit "key/ast2700a1-default/own-fw-ecc-prvk.pem") args) w)
  /\ (key args = lit "man" ->
      script argv w =
      run (main_dispatch (lit "key/ast2700a1-default/own-man-ecc-prvk.pem") args) w)
  /\ (key args <> lit "fw" -> key args <> lit "man" ->
      script argv w =
      (1%Z, set_stderr (stderr w ++ lit "Unknown key type: " ++ key args ++ nl) w)).
Proof.
  intros Hp. rewrite (script_parsed _ _ _ Hp). unfold spec_key_path.
  repeat split.
  - intros Hk. rewrite bool_decide_eq_true_2 by assumption. reflexivity.
  - intros Hk. rewrite Hk.
    rewrite bool_decide_eq_false_2, bool_decide_eq_true_2;
      [reflexivity | reflexivity | apply man_is_not_fw].
  - intros H1 H2. rewrite !bool_decide_eq_false_2 by assumption. reflexivity.
Qed.

(** * Further properties of the script *)

(** ** What a run may touch *)

(** The stdin flow never changes a file. *)
Lemma run_sign_from_stdin_fs (key_path : pystr) w :
  fs (snd (run (sign_from_stdin key_path) w)) = fs w.
Proof.
  rewrite run_sign_from_stdin. cbv zeta.
  destruct (truthy (first_line_stripped w)); cbn [negb]; [|reflexivity].
  destruct (unhexlify (first_line_stripped w)) as [digest|ex]; [|reflexivity].
  match goal with |- context [sign_digest digest key_path ?x] =>
    destruct (sign_digest digest key_path x) as [[sg|c'|ex] w2] eqn:Hs end;
    apply sign_digest_frame in Hs as (Hfs & _); world_simpl; exact Hfs.
Qed.

(** The file flow changes at most the input file, and only when it ends
    with status 0. *)
Lemma run_sign_by_file_fs (key_path input_path : pystr) w code wf :
  run (sign_by_file key_path input_path) w = (code, wf) ->
  fs wf = fs w
  \/ (code = 0%Z
      /\ exists signature, fs wf = <[input_path := File signature]> (fs w)).
Proof.
  rewrite run_sign_by_file.
  destruct (fs w !! input_path) as [[digest|]|]; cbv zeta.
  2,3: intros [= <- <-]; left; reflexivity.
  match goal with |- context [sign_digest digest key_path ?x] =>
    destruct (sign_digest digest key_path x) as [[sg|c'|ex] w2] eqn:Hs end;
    apply sign_digest_frame in Hs as (Hfs & _); world_simpl;
    intros [= <- <-]; world_simpl.
  - right. split; [reflexivity|]. exists sg. now rewrite Hfs.
  - left. exact Hfs.
  - left. exact Hfs.
Qed.

(** X1.  Whatever the command line and the world, a run changes no file,
    except that a file-mode run ending with status 0 has replaced the
    contents of the [--input] path, and of that path only, by a signature.
    In particular the key files are never written unless one of them is
    itself given as [--input]. *)
Theorem only_the_input_file_changes argv w code wf :
  script argv w = (code, wf) ->
  fs wf = fs w
  \/ (code = 0%Z
      /\ exists args input_path signature,
           parse_args argv = Parsed args
           /\ by_file args = true
           /\ input args = Some input_path
           /\ fs wf = <[input_path := File signature]> (fs w)).
Proof.
  destruct (parse_args argv) as [args|m|] eqn:Hp.
  - rewrite (script_parsed _ _ _ Hp).
    destruct (spec_key_path (key args)) as [key_path|].
    2: { intros [= <- <-]. left. reflexivity. }
    destruct (by_file args) eqn:Hb.
    + rewrite run_main_dispatch_file by assumption.
      destruct (input args) as [[|c p]|] eqn:Hi.
      1,3: intros [= <- <-]; left; reflexivity.
      intros Hr. apply run_sign_by_file_fs in Hr as [Hfs | (Hc & sg & Hfs)].
      * left. exact Hfs.
      * right. split; [assumption|]. exists args, (c :: p), sg. auto.
    + rewrite run_main_dispatch_stdin by assumption.
      intros Hr. left.
      pose proof (run_sign_from_stdin_fs key_path w) as H.
      rewrite Hr in H. exact H.
  - unfold script, run, main, parser_parse_args. rewrite Hp. unfold_monad.
    intros [= <- <-]. left. reflexivity.
  - unfold script, run, main, parser_parse_args. rewrite Hp. unfold_monad.
    intros [= <- <-]. left. reflexivity.
Qed.




(** [readline] stops at the first chunk that does not decode. *)
Lemma readline_undecodable (read : pystr) (pieces : list pystr)
    (text : pystr) (e : exn) (rest : list chunk) :
  existsb (N.eqb 10) (concat pieces) = false ->
  readline read (List.map Decoded pieces ++ Undecodable text e :: rest)
  = (Err e, rest).
Proof.
  revert read. induction pieces as [|p pieces IH]; intros read H;
    cbn [List.map app concat readline] in *; [reflexivity|].
  rewrite existsb_app in H. apply orb_false_iff in H as [Hp H].
  rewrite Hp. apply IH, H.
Qed.

(** X10.  Input that does not decode ends a stdin-mode run before anything
    is signed.  When the chunks read before a newline has come decode, and
    the next chunk holds octets the codec rejects, [readline] raises the
    decoding error, whatever text that chunk holds before those octets,
    complete lines included; nobody catches it.  The run ends with status 1
    and the traceback on standard error; no file is opened, no library call
    is made and nothing is written to standard output. *)
Theorem undecodable_input_fails_the_run
    argv args (key_path : pystr) w
    (pieces : list pystr) (text : pystr) (e : exn) (rest : list chunk) :
  parse_args argv = Parsed args ->
  spec_key_path (key args) = Some key_path ->
  by_file args = false ->
  stdin w = List.map Decoded pieces ++ Undecodable text e :: rest ->
  existsb (N.eqb 10) (concat pieces) = false ->
  exists wf,
    script argv w = (1%Z, wf)
    /\ stderr wf = stderr w ++ format_exception e
    /\ stdout wf = stdout w /\ trace wf = trace w /\ fs wf = fs w
    /\ entropy wf = entropy w /\ stdin wf = rest.
Proof.
  intros Hp Hk Hb Hin Hnl.
  rewrite (script_stdin_mode _ _ _ _ Hp Hk Hb), run_sign_from_stdin.
  cbv zeta. unfold first_line_stripped, first_line, unread.
  rewrite Hin, (readline_undecodable _ _ _ _ _ Hnl). cbn [fst snd truthy negb].
  eexists. split; [reflexivity|]. world_simpl. auto 10.
Qed.

(** ** The library calls of a run *)

(** The events of [sign_digest] in full: either the key did not load and no
    signing call was made, or it loaded and the one signing call was made on
    the digest as given, with the entropy of the world. *)
Lemma sign_digest_calls (digest : bytes) (key_path : pystr) w r w' :
  sign_digest digest key_path w = (r, w') ->
  exists evs,
    trace w' = trace w ++ evs
    /\ ((forall pem private_key,
           fs w !! key_path = Some (File pem) ->
           load_pem_private_key pem <> Ok private_key)
        /\ (exists ex, r = Raise ex)
        /\ signed_digests evs = [] /\ entropy w' = entropy w
        \/ exists pem private_key,
             fs w !! key_path = Some (File pem)
             /\ load_pem_private_key pem = Ok private_key
             /\ evs =
                [ EvOpen key_path Rb; EvLoadKey pem (Ok private_key);
                  EvSign private_key digest (ECDSA_Prehashed SHA384)
                    (fst (private_key_sign private_key digest
                            (ECDSA_Prehashed SHA384) (entropy w))) ]
             /\ entropy w' =
                snd (private_key_sign private_key digest
                       (ECDSA_Prehashed SHA384) (entropy w))
             /\ r = match fst (private_key_sign private_key digest
                                (ECDSA_Prehashed SHA384) (entropy w)) with
                    | Ok signature => Ret signature
                    | Err ex => Raise ex
                    end).
Proof.
  rewrite sign_digest_cases. cbv zeta.
  destruct (fs w !! key_path) as [[pem|]|] eqn:Hkey.
  2,3: intros [= <- <-]; world_simpl; eexists; (split; [reflexivity|]);
       left; (split; [discriminate|]); eauto.
  destruct (load_pem_private_key pem) as [k|ex] eqn:Hload.
  2: { intros [= <- <-]. world_simpl. rewrite <- app_assoc.
       eexists. split; [reflexivity|]. left.
       split; [intros pem' k' [= <-]; congruence|]. eauto. }
  destruct (private_key_sign k digest (ECDSA_Prehashed SHA384) (entropy w))
    as [[s|ex] e] eqn:Hsign; intros [= <- <-]; world_simpl;
    rewrite <- !app_assoc; (eexists; split; [reflexivity|]);
    right; exists pem, k; rewrite Hsign; cbn [fst snd app]; auto 10.
Qed.

Lemma in_signed_digests (evs : list event) (private_key : PrivateKey)
    (digest : bytes) (algorithm : signature_algorithm) (r : result bytes) :
  In (EvSign private_key digest algorithm r) evs ->
  In digest (signed_digests evs).
Proof.
  intros Hin. unfold signed_digests. apply in_flat_map.
  eexists. split; [exact Hin|]. left. reflexivity.
Qed.

(** X3.  A run makes at most one signing call.  When it makes one, the
    algorithm is ECDSA over a prehashed SHA-384 digest, the key is the one
    loaded from the contents the file at the selected key path had when the
    run started, and the randomness is the one the run started with. *)
Theorem at_most_one_signing_call_with_the_selected_key argv w code wf :
  script argv w = (code, wf) ->
  exists evs,
    trace wf = trace w ++ evs
    /\ (length (signed_digests evs) <= 1)%nat
    /\ forall private_key digest algorithm r,
         In (EvSign private_key digest algorithm r) evs ->
         algorithm = ECDSA_Prehashed SHA384
         /\ r = fst (private_key_sign private_key digest
                       (ECDSA_Prehashed SHA384) (entropy w))
         /\ exists args key_path pem,
              parse_args argv = Parsed args
              /\ spec_key_path (key args) = Some key_path
              /\ fs w !! key_path = Some (File pem)
              /\ load_pem_private_key pem = Ok private_key.
Proof.
  assert (Hnone : forall wf', trace wf' = trace w ->
    exists evs, trace wf' = trace w ++ evs
      /\ (length (signed_digests evs) <= 1)%nat
      /\ forall private_key digest algorithm r,
           In (EvSign private_key digest algorithm r) evs ->
           algorithm = ECDSA_Prehashed SHA384
           /\ r = fst (private_key_sign private_key digest
                         (ECDSA_Prehashed SHA384) (entropy w))
           /\ exists args key_path pem,
                parse_args argv = Parsed args
                /\ spec_key_path (key args) = Some key_path
                /\ fs w !! key_path = Some (File pem)
                /\ load_pem_private_key pem = Ok private_key).
  { intros wf' Ht. exists []. rewrite app_nil_r.
    split; [exact Ht|]. split; [cbn; lia|]. intros ? ? ? ? []. }
  assert (Hsd : forall (digest : bytes) (key_path : pystr) args w1 r w2
                       (before after : list event) wf',
    parse_args argv = Parsed args ->
    spec_key_path (key args) = Some key_path ->
    fs w1 = fs w -> entropy w1 = entropy w ->
    trace w1 = trace w ++ before ->
    signed_digests before = [] -> signed_digests after = [] ->
    sign_digest digest key_path w1 = (r, w2) ->
    trace wf' = trace w2 ++ after ->
    exists evs, trace wf' = trace w ++ evs
      /\ (length (signed_digests evs) <= 1)%nat
      /\ forall private_key digest algorithm r,
           In (EvSign private_key digest algorithm r) evs ->
           algorithm = ECDSA_Prehashed SHA384
           /\ r = fst (private_key_sign private_key digest
                         (ECDSA_Prehashed SHA384) (entropy w))
           /\ exists args key_path pem,
                parse_args argv = Parsed args
                /\ spec_key_path (key args) = Some key_path
                /\ fs w !! key_path = Some (File pem)
                /\ load_pem_private_key pem = Ok private_key).
  { intros digest key_path args w1 r w2 before after wf' Hp Hk Hfs He Hb
           Hsb Hsa Hs Hwf.
    apply sign_digest_calls in Hs as (evs & Ht & Hcase).
    exists (before ++ evs ++ after).
    split; [rewrite Hwf, Ht, Hb, <- !app_assoc; reflexivity|].
    assert (Hmid : forall k d a r',
      In (EvSign k d a r') (before ++ evs ++ after) ->
      In (EvSign k d a r') evs).
    { intros k d a r' Hin.
      apply in_app_or in Hin as [Hin|Hin].
      { apply in_signed_digests in Hin. rewrite Hsb in Hin. destruct Hin. }
      apply in_app_or in Hin as [Hin|Hin]; [exact Hin|].
      apply in_signed_digests in Hin. rewrite Hsa in Hin. destruct Hin. }
    rewrite !signed_digests_app, Hsb, Hsa, app_nil_r. cbn [app].
    destruct Hcase as [(_ & _ & Hsd & _) | (pem & k & Hkey & Hload & -> & _)].
    - split; [rewrite Hsd; cbn; lia|].
      intros k d a r' Hin. apply Hmid, in_signed_digests in Hin.
      rewrite Hsd in Hin. destruct Hin.
    - split; [cbn; lia|].
      intros k' d a r' Hin. apply Hmid in Hin.
      destruct Hin as [H|[H|[H|[]]]]; try discriminate.
      injection H as <- <- <- <-. rewrite Hfs in Hkey. rewrite He.
      split; [reflexivity|]. split; [reflexivity|].
      exists args, key_path, pem. auto. }
  destruct (parse_args argv) as [args|m|] eqn:Hp.
  - rewrite (script_parsed _ _ _ Hp).
    destruct (spec_key_path (key args)) as [key_path|] eqn:Hk.
    2: { intros [= <- <-]. apply Hnone. reflexivity. }
    destruct (by_file args) eqn:Hb.
    + rewrite run_main_dispatch_file by assumption.
      destruct (input args) as [[|c p]|] eqn:Hi.
      1,3: intros [= <- <-]; apply Hnone; reflexivity.
      rewrite run_sign_by_file. world_simpl.
      destruct (fs w !! (c :: p)) as [[digest|]|]; cbv zeta.
      3: { intros [= <- <-]. apply Hnone. reflexivity. }
      2: { intros [= <- <-]. world_simpl. exists [EvOpen (c :: p) Rb].
           split; [reflexivity|]. split; [cbn; lia|].
           intros ? ? ? ? [H|[]]. discriminate. }
      match goal with |- context [sign_digest digest key_path ?x] =>
        destruct (sign_digest digest key_path x) as [[sg|c'|ex] w2] eqn:Hs end;
        intros [= <- <-].
      * eapply (Hsd digest key_path args _ _ w2 [EvOpen (c :: p) Rb]
                  [EvOpen (c :: p) Wb]); try eassumption; reflexivity.
      * exfalso. eapply sign_digest_no_exit; eassumption.
      * eapply (Hsd digest key_path args _ _ w2 [EvOpen (c :: p) Rb] []);
          try eassumption; try reflexivity.
        world_simpl. now rewrite app_nil_r.
    + rewrite run_main_dispatch_stdin, run_sign_from_stdin by assumption.
      cbv zeta.
      destruct (truthy (first_line_stripped w)); cbn [negb].
      2: { intros [= <- <-]. apply Hnone. reflexivity. }
      destruct (unhexlify (first_line_stripped w)) as [digest|ex].
      2: { intros [= <- <-]. apply Hnone. reflexivity. }
      match goal with |- context [sign_digest digest key_path ?x] =>
        destruct (sign_digest digest key_path x) as [[sg|c'|ex] w2] eqn:Hs end;
        intros [= <- <-].
      * eapply (Hsd digest key_path args _ _ w2 [] []);
          try eassumption; try reflexivity.
        -- world_simpl. now rewrite app_nil_r.
        -- world_simpl. now rewrite app_nil_r.
      * exfalso. eapply sign_digest_no_exit; eassumption.
      * eapply (Hsd digest key_path args _ _ w2 [] []);
          try eassumption; try reflexivity.
        -- world_simpl. now rewrite app_nil_r.
        -- world_simpl. now rewrite app_nil_r.
  - unfold script, run, main, parser_parse_args. rewrite Hp. unfold_monad.
    intros [= <- <-]. apply Hnone. reflexivity.
  - unfold script, run, main, parser_parse_args. rewrite Hp. unfold_monad.
    intros [= <- <-]. apply Hnone. reflexivity.
Qed.

(** ** Success and failure *)

(** X4.  Status 0 is a guarantee: a parsed command line whose run ends with
    status 0 had a known key type, the key file loaded, the library returned
    a signature for the digest the run was given, and that signature was
    delivered: in file mode the input file, which held the digest, now
    holds the signature; in stdin mode the digest was the decoding of the
    stripped first line and standard output gained the hex of the
    signature and a newline. *)
Theorem status_0_means_signature_delivered argv args w wf :
  parse_args argv = Parsed args ->
  script argv w = (0%Z, wf) ->
  exists key_path pem private_key digest signature e',
    spec_key_path (key args) = Some key_path
    /\ fs w !! key_path = Some (File pem)
    /\ load_pem_private_key pem = Ok private_key
    /\ private_key_sign private_key digest (ECDSA_Prehashed SHA384) (entropy w)
       = (Ok signature, e')
    /\ if by_file args then
         exists input_path,
           input args = Some input_path
           /\ fs w !! input_path = Some (File digest)
           /\ fs wf = <[input_path := File signature]> (fs w)
           /\ stdout wf = stdout w
       else
         unhexlify (first_line_stripped w) = Ok digest
         /\ stdout wf = stdout w ++ decode (hexlify signature) ++ nl
         /\ fs wf = fs w.
Proof.
  intros Hp. rewrite (script_parsed _ _ _ Hp).
  destruct (spec_key_path (key args)) as [key_path|] eqn:Hk; [|discriminate].
  assert (Hret : forall digest w1 sg w2,
    sign_digest digest key_path w1 = (Ret sg, w2) ->
    fs w1 = fs w -> entropy w1 = entropy w ->
    exists pem private_key e',
      fs w !! key_path = Some (File pem)
      /\ load_pem_private_key pem = Ok private_key
      /\ private_key_sign private_key digest (ECDSA_Prehashed SHA384)
           (entropy w) = (Ok sg, e')).
  { intros digest w1 sg w2 Hs Hfs He.
    apply sign_digest_calls in Hs as (evs & _ & Hcase).
    destruct Hcase as [(_ & (ex & Hex) & _) | (pem & k & Hkey & Hload & _ & _ & Hr)];
      [discriminate|].
    rewrite Hfs in Hkey. rewrite He in Hr.
    destruct (private_key_sign k digest (ECDSA_Prehashed SHA384) (entropy w))
      as [[s|ex] e] eqn:Hsign; cbn [fst] in Hr; [|discriminate].
    injection Hr as <-. exists pem, k, e. auto. }
  destruct (by_file args) eqn:Hb.
  - rewrite run_main_dispatch_file by assumption.
    destruct (input args) as [[|c p]|] eqn:Hi; try discriminate.
    rewrite run_sign_by_file. world_simpl.
    destruct (fs w !! (c :: p)) as [[digest|]|] eqn:Hin; cbv zeta;
      try discriminate.
    match goal with |- context [sign_digest digest key_path ?x] =>
      destruct (sign_digest digest key_path x) as [[sg|c'|ex] w2] eqn:Hs end;
      try discriminate.
    + intros [= <-].
      destruct (Hret _ _ _ _ Hs eq_refl eq_refl) as (pem & k & e' & H1 & H2 & H3).
      apply sign_digest_frame in Hs as (Hfs & _ & Hout & _).
      exists key_path, pem, k, digest, sg, e'.
      repeat (split; [assumption || reflexivity|]).
      exists (c :: p). world_simpl. rewrite Hfs, Hout. auto.
    + exfalso. eapply sign_digest_no_exit; eassumption.
  - rewrite run_main_dispatch_stdin, run_sign_from_stdin by assumption.
    cbv zeta.
    destruct (truthy (first_line_stripped w)); cbn [negb]; [|discriminate].
    destruct (unhexlify (first_line_stripped w)) as [digest|ex] eqn:Hhex;
      [|discriminate].
    match goal with |- context [sign_digest digest key_path ?x] =>
      destruct (sign_digest digest key_path x) as [[sg|c'|ex] w2] eqn:Hs end;
      try discriminate.
    + intros [= <-].
      destruct (Hret _ _ _ _ Hs eq_refl eq_refl) as (pem & k & e' & H1 & H2 & H3).
      apply sign_digest_frame in Hs as (Hfs & _ & Hout & _).
      exists key_path, pem, k, digest, sg, e'.
      repeat (split; [assumption || reflexivity|]).
      world_simpl. rewrite Hfs, Hout. auto.
    + exfalso. eapply sign_digest_no_exit; eassumption.
Qed.

(** X5.  Without a loadable key at the selected path (the key file is
    missing, is a directory, or the library cannot load it), every run of a
    parsed command line ends with status 1; no signing call is made, no
    randomness is drawn and neither the files nor standard output change. *)
Theorem without_a_loadable_key_every_run_fails
    argv args (key_path : pystr) w :
  parse_args argv = Parsed args ->
  spec_key_path (key args) = Some key_path ->
  (forall pem private_key,
      fs w !! key_path = Some (File pem) ->
      load_pem_private_key pem <> Ok private_key) ->
  exists wf evs,
    script argv w = (1%Z, wf)
    /\ trace wf = trace w ++ evs
    /\ signed_digests evs = []
    /\ entropy wf = entropy w
    /\ fs wf = fs w
    /\ stdout wf = stdout w.
Proof.
  intros Hp Hk Hno. rewrite (script_parsed _ _ _ Hp), Hk.
  assert (Hfail : forall digest w1 r w2,
    sign_digest digest key_path w1 = (r, w2) ->
    fs w1 = fs w ->
    exists ex evs,
      r = Raise ex /\ trace w2 = trace w1 ++ evs /\ signed_digests evs = []
      /\ entropy w2 = entropy w1 /\ fs w2 = fs w1 /\ stdout w2 = stdout w1).
  { intros digest w1 r w2 Hs Hfs.
    pose proof (sign_digest_frame _ _ _ _ _ Hs) as (Hf & _ & Hout & _).
    apply sign_digest_calls in Hs as (evs & Ht & Hcase).
    destruct Hcase as [(_ & (ex & Hex) & Hsd & He) | (pem & k & Hkey & Hload & _)].
    - exists ex, evs. auto 10.
    - rewrite Hfs in Hkey. exfalso. exact (Hno _ _ Hkey Hload). }
  destruct (by_file args) eqn:Hb.
  - rewrite run_main_dispatch_file by assumption.
    destruct (input args) as [[|c p]|] eqn:Hi.
    1,3: exists (set_stderr
                   (stderr w ++ lit "Error: --input <path> is required when using --by-file"
                    ++ nl) w), [];
         world_simpl; rewrite app_nil_r; auto 10.
    rewrite run_sign_by_file. world_simpl.
    destruct (fs w !! (c :: p)) as [[digest|]|] eqn:Hin; cbv zeta.
    + match goal with |- context [sign_digest digest key_path ?x] =>
        destruct (sign_digest digest key_path x) as [r w2] eqn:Hs end.
      destruct (Hfail _ _ _ _ Hs eq_refl)
        as (ex & evs & -> & Ht & Hsd & He & Hf & Hout).
      world_simpl. eexists. exists (EvOpen (c :: p) Rb :: evs).
      split; [reflexivity|]. world_simpl. rewrite Ht, <- app_assoc.
      auto 10.
    + eexists. exists [EvOpen (c :: p) Rb].
      split; [reflexivity|]. world_simpl. auto 10.
    + eexists. exists []. split; [reflexivity|]. world_simpl.
      rewrite app_nil_r. auto 10.
  - rewrite run_main_dispatch_stdin, run_sign_from_stdin by assumption.
    cbv zeta.
    destruct (truthy (first_line_stripped w)); cbn [negb].
    2: { eexists. exists []. split; [reflexivity|]. world_simpl.
         rewrite app_nil_r. auto 10. }
    destruct (unhexlify (first_line_stripped w)) as [digest|ex].
    2: { eexists. exists []. split; [reflexivity|]. world_simpl.
         rewrite app_nil_r. auto 10. }
    match goal with |- context [sign_digest digest key_path ?x] =>
      destruct (sign_digest digest key_path x) as [r w2] eqn:Hs end.
    destruct (Hfail _ _ _ _ Hs eq_refl)
      as (ex & evs & -> & Ht & Hsd & He & Hf & Hout).
    world_simpl. eexists. exists evs.
    split; [reflexivity|]. world_simpl. auto 10.
Qed.

(** X6.  The existence check of file mode does not tell files from
    directories: when [--input] names a directory the run gets past the
    check and ends in the uncaught [IsADirectoryError] of [open], with
    status 1.  The key file is not read, nothing is signed and nothing
    changes but standard error. *)
Theorem directory_as_input_is_an_uncaught_error
    argv args (key_path input_path : pystr) w :
  parse_args argv = Parsed args ->
  spec_key_path (key args) = Some key_path ->
  by_file args = true ->
  input args = Some input_path ->
  input_path <> [] ->
  fs w !! input_path = Some Dir ->
  exists wf,
    script argv w = (1%Z, wf)
    /\ trace wf = trace w ++ [EvOpen input_path Rb]
    /\ stderr wf =
         stderr w
         ++ (lit "Using input file: " ++ input_path ++ nl)
         ++ format_exception
              (errno_error "IsADirectoryError" "[Errno 21] Is a directory"
                 input_path)
    /\ fs wf = fs w /\ stdout wf = stdout w /\ stdin wf = stdin w
    /\ entropy wf = entropy w.
Proof.
  intros Hp Hk Hb Hi Hne Hin.
  rewrite (script_file_mode _ _ _ _ _ Hp Hk Hb Hi Hne).
  rewrite run_sign_by_file. world_simpl. rewrite Hin. cbv zeta.
  eexists. split; [reflexivity|]. world_simpl.
  rewrite <- !app_assoc. auto 10.
Qed.

(** ** The two modes side by side *)

(** File mode in terms of what [sign_digest] returns on the file's contents. *)
Lemma file_mode_summary
    argv args (key_path input_path : pystr) (digest : bytes) w :
  parse_args argv = Parsed args ->
  spec_key_path (key args) = Some key_path ->
  by_file args = true ->
  input args = Some input_path ->
  input_path <> [] ->
  fs w !! input_path = Some (File digest) ->
  fst (script argv w)
  = match fst (sign_digest digest key_path w) with
    | Ret _ => 0%Z
    | _ => 1%Z
    end
  /\ fs (snd (script argv w))
     = match fst (sign_digest digest key_path w) with
       | Ret signature => <[input_path := File signature]> (fs w)
       | _ => fs w
       end.
Proof.
  intros Hp Hk Hb Hi Hne Hin.
  rewrite (script_file_mode _ _ _ _ _ Hp Hk Hb Hi Hne).
  rewrite run_sign_by_file. world_simpl. rewrite Hin. cbv zeta.
  match goal with |- context [sign_digest digest key_path ?x] =>
    rewrite (sign_digest_outcome digest key_path w x) by reflexivity;
    destruct (sign_digest digest key_path x) as [[sg|c'|ex] w2] eqn:Hs
  end.
  - apply sign_digest_frame in Hs as (Hfs & _). world_simpl.
    rewrite Hfs. auto.
  - exfalso. eapply sign_digest_no_exit; eassumption.
  - apply sign_digest_frame in Hs as (Hfs & _). world_simpl. auto.
Qed.

(** Stdin mode in terms of what [sign_digest] returns on the decoded line. *)
Lemma stdin_mode_summary argv args (key_path : pystr) (digest : bytes) w :
  parse_args argv = Parsed args ->
  spec_key_path (key args) = Some key_path ->
  by_file args = false ->
  first_line_stripped w <> [] ->
  unhexlify (first_line_stripped w) = Ok digest ->
  fst (script argv w)
  = match fst (sign_digest digest key_path w) with
    | Ret _ => 0%Z
    | _ => 1%Z
    end
  /\ stdout (snd (script argv w))
     = match fst (sign_digest digest key_path w) with
       | Ret signature => stdout w ++ decode (hexlify signature) ++ nl
       | _ => stdout w
       end.
Proof.
  intros Hp Hk Hb Hne Hhex.
  rewrite (script_stdin_mode _ _ _ _ Hp Hk Hb), run_sign_from_stdin. cbv zeta.
  destruct (first_line_stripped w) as [|c l] eqn:Hl; [contradiction|].
  cbn [truthy negb]. rewrite Hhex.
  match goal with |- context [sign_digest digest key_path ?x] =>
    rewrite (sign_digest_outcome digest key_path w x) by reflexivity;
    destruct (sign_digest digest key_path x) as [[sg|c'|ex] w2] eqn:Hs
  end.
  - apply sign_digest_frame in Hs as (_ & _ & Hout & _). world_simpl.
    rewrite Hout. auto.
  - exfalso. eapply sign_digest_no_exit; eassumption.
  - apply sign_digest_frame in Hs as (_ & _ & Hout & _). world_simpl. auto.
Qed.

(** X7.  The two modes sign alike.  In one world, a file-mode command line
    whose input file holds a digest and a stdin-mode command line for the
    same key, with the hex of that digest on standard input, end with the
    same status; when it is 0, what file mode leaves in the file is the
    signature whose hex stdin mode prints. *)
Theorem both_modes_sign_alike
    argv_file args_file argv_stdin args_stdin
    (key_path input_path : pystr) (digest : bytes) w :
  parse_args argv_file = Parsed args_file ->
  spec_key_path (key args_file) = Some key_path ->
  by_file args_file = true ->
  input args_file = Some input_path ->
  input_path <> [] ->
  fs w !! input_path = Some (File digest) ->
  parse_args argv_stdin = Parsed args_stdin ->
  spec_key_path (key args_stdin) = Some key_path ->
  by_file args_stdin = false ->
  first_line_stripped w <> [] ->
  unhexlify (first_line_stripped w) = Ok digest ->
  fst (script argv_file w) = fst (script argv_stdin w)
  /\ (fst (script argv_stdin w) = 0%Z ->
      exists signature,
        fs (snd (script argv_file w)) !! input_path = Some (File signature)
        /\ stdout (snd (script argv_stdin w))
           = stdout w ++ decode (hexlify signature) ++ nl).
Proof.
  intros Hp1 Hk1 Hb1 Hi Hne Hin Hp2 Hk2 Hb2 Hl Hhex.
  destruct (file_mode_summary _ _ _ _ _ _ Hp1 Hk1 Hb1 Hi Hne Hin) as [Hc1 Hf].
  destruct (stdin_mode_summary _ _ _ _ _ Hp2 Hk2 Hb2 Hl Hhex) as [Hc2 Ho].
  rewrite Hc1, Hc2, Hf, Ho. split; [reflexivity|].
  destruct (fst (sign_digest digest key_path w)) as [sg|c|ex];
    try discriminate.
  intros _. exists sg. split; [apply lookup_insert_eq | reflexivity].
Qed.

(** X8.  File mode is not idempotent.  After a file-mode run that ended with
    status 0, the input file holds the signature; running the same command
    again (the key file being another file) hands that signature, not the
    original digest, to the signing call. *)
Theorem rerun_signs_the_signature
    argv args (key_path input_path : pystr) w wf :
  parse_args argv = Parsed args ->
  spec_key_path (key args) = Some key_path ->
  by_file args = true ->
  input args = Some input_path ->
  key_path <> input_path ->
  script argv w = (0%Z, wf) ->
  exists signature evs,
    fs wf !! input_path = Some (File signature)
    /\ trace (snd (script argv wf)) = trace wf ++ evs
    /\ signed_digests evs = [signature].
Proof.
  intros Hp Hk Hb Hi Hdiff Hrun.
  assert (Hne : input_path <> []).
  { intros ->. rewrite (script_parsed _ _ _ Hp), Hk in Hrun.
    rewrite run_main_dispatch_file, Hi in Hrun by assumption. discriminate. }
  (* the first run *)
  assert (H1 : exists pem private_key signature,
    fs w !! key_path = Some (File pem)
    /\ load_pem_private_key pem = Ok private_key
    /\ fs wf = <[input_path := File signature]> (fs w)).
  { rewrite (script_file_mode _ _ _ _ _ Hp Hk Hb Hi Hne) in Hrun.
    rewrite run_sign_by_file in Hrun. world_simpl.
    destruct (fs w !! input_path) as [[digest|]|]; cbv zeta in Hrun;
      try discriminate.
    match type of Hrun with context [sign_digest digest key_path ?x] =>
      destruct (sign_digest digest key_path x) as [[sg|c'|ex] w2] eqn:Hs end;
      try discriminate.
    - injection Hrun as <-.
      pose proof (sign_digest_frame _ _ _ _ _ Hs) as (Hfs & _).
      apply sign_digest_calls in Hs as (evs & _ & Hcase).
      destruct Hcase as [(_ & (ex & Hex) & _) | (pem & k & Hkey & Hload & _)];
        [discriminate|].
      exists pem, k, sg. world_simpl. rewrite Hfs. auto.
    - exfalso. eapply sign_digest_no_exit; eassumption. }
  destruct H1 as (pem & k & sg & Hkey & Hload & Hfs).
  exists sg.
  assert (Hin2 : fs wf !! input_path = Some (File sg)).
  { rewrite Hfs. apply lookup_insert_eq. }
  assert (Hkey2 : fs wf !! key_path = Some (File pem)).
  { rewrite Hfs, lookup_insert_ne by congruence. exact Hkey. }
  (* the second run *)
  enough (exists evs,
            trace (snd (script argv wf)) = trace wf ++ evs
            /\ signed_digests evs = [sg]) as (evs & Ht & Hsd)
    by (exists evs; auto).
  rewrite (script_file_mode _ _ _ _ _ Hp Hk Hb Hi Hne).
  rewrite run_sign_by_file. world_simpl. rewrite Hin2. cbv zeta.
  match goal with |- context [sign_digest sg key_path ?x] =>
    destruct (sign_digest sg key_path x) as [r w2] eqn:Hs end.
  apply sign_digest_calls in Hs as (evs & Ht & Hcase). world_simpl.
  destruct Hcase as [(Hno & _) | (pem' & k' & _ & _ & -> & _ & ->)].
  { exfalso. exact (Hno _ _ Hkey2 Hload). }
  match goal with |- context [match ?x with Ok _ => _ | Err _ => _ end] =>
    destruct x as [s2|ex] end; world_simpl; rewrite Ht, <- !app_assoc;
    eexists; (split; [reflexivity|]); reflexivity.
Qed.

End Properties.

Transparent lit.

(** ** The small ECDSA instance honours the library contract *)
Module TinyEcdsaProofs.

Import TinyEcdsa.
Local Open Scope Z_scope.

Lemma in_range_bounds (m : nat) (x : Z) :
  0 <= x < Z.of_nat m -> In x (range m).
Proof.
  intros Hx. unfold range. apply in_map_iff.
  exists (Z.to_nat x). split; [lia|]. apply in_seq. lia.
Qed.

Lemma sound_everywhere_true :
  forallb (fun d => forallb (fun z => forallb (sound_at d z) (range 19))
                      (range 32)) (range 19) = true.
Proof. vm_compute. reflexivity. Qed.

Lemma sound_at_true (d z k : Z) :
  in_range d = true -> 0 <= z < 32 -> in_range k = true ->
  sound_at d z k = true.
Proof.
  unfold in_range, n. intros Hd Hz Hk.
  apply andb_true_iff in Hd as [Hd1 Hd2], Hk as [Hk1 Hk2].
  pose proof sound_everywhere_true as H.
  rewrite forallb_forall in H.
  specialize (H d (in_range_bounds 19 d ltac:(lia))).
  rewrite forallb_forall in H.
  specialize (H z (in_range_bounds 32 z ltac:(lia))).
  rewrite forallb_forall in H.
  exact (H k (in_range_bounds 19 k ltac:(lia))).
Qed.

Lemma digest_int_bounds (data : bytes) : 0 <= digest_int data < 32.
Proof.
  destruct data as [|b data]; cbn [digest_int]; [lia|].
  pose proof (Byte.to_N_bounded b) as Hb.
  split; [apply Z.div_pos; lia|].
  apply Z.div_lt_upper_bound; lia.
Qed.

Lemma sign_loop_sound (d z : Z) (nonces : list Z) (signature : bytes)
    (rest : list Z) :
  in_range d = true -> 0 <= z < 32 ->
  sign_loop d z nonces = (Ok signature, rest) ->
  verify_int (mul d G) signature z = true.
Proof.
  intros Hd Hz. induction nonces as [|k nonces IH]; cbn [sign_loop].
  - discriminate.
  - destruct (in_range k) eqn:Hk; [|exact IH].
    pose proof (sound_at_true d z k Hd Hz Hk) as Hs. unfold sound_at in Hs.
    destruct (sign_with d z k) as [[r s]|]; [|exact IH].
    intros [= <- _]. exact Hs.
Qed.

Lemma sign_sound (d : Z) (data : bytes) (algorithm : signature_algorithm)
    (e : list Z) (signature : bytes) (e' : list Z) :
  sign d data algorithm e = (Ok signature, e') ->
  verify (mul d G) signature data algorithm = true.
Proof.
  unfold sign, verify. destruct algorithm as [h|h]; [discriminate|].
  destruct (length data =? digest_size h)%nat; cbn [negb andb]; [|discriminate].
  destruct (in_range d) eqn:Hd; cbn [negb]; [|discriminate].
  apply sign_loop_sound; [assumption | apply digest_int_bounds].
Qed.

#[global] Instance verification : Verification library := {|
  PublicKey := point;
  public_key := fun d => mul d G;
  public_key_verify := verify;
  sign_verifies := sign_sound
|}.

End TinyEcdsaProofs.

(** ** Hexadecimal round trip *)

Lemma hexlify_pair (b : byte) :
  exists hi lo,
    decode (hexlify [b]) = [hi; lo]
    /\ hex_value hi = Some (Byte.to_N b / 16)%N
    /\ hex_value lo = Some (Byte.to_N b mod 16)%N
    /\ (hi <? 128)%N = true /\ (lo <? 128)%N = true
    /\ byte_of_nibbles (Byte.to_N b / 16) (Byte.to_N b mod 16) = b.
Proof. destruct b; do 2 eexists; vm_compute; auto 10. Qed.

(** Every byte string is the decoding of its own hex encoding, so every
    digest, of any length, can be given on standard input. *)
Lemma unhexlify_hexlify (bs : bytes) : unhexlify (decode (hexlify bs)) = Ok bs.
Proof.
  assert (H : forallb (fun c => c <? 128)%N (decode (hexlify bs)) = true
              /\ Nat.odd (length (decode (hexlify bs))) = false
              /\ a2b_pairs (decode (hexlify bs)) = Ok bs).
  { induction bs as [|b bs (IH1 & IH2 & IH3)]; [auto|].
    destruct (hexlify_pair b) as (hi & lo & Hd & Hh & Hl & H1 & H2 & Hb).
    change (hexlify (b :: bs)) with (hexlify [b] ++ hexlify bs).
    unfold decode in *. rewrite map_app, Hd.
    cbn [app forallb length a2b_pairs].
    rewrite H1, H2, IH1, Hh, Hl, IH3, Hb.
    repeat split. exact IH2. }
  destruct H as (H1 & H2 & H3). unfold unhexlify. rewrite H1, H2. exact H3.
Qed.

Section OutputLine.

Context {argparse : ArgumentParser} {cryptography : Cryptography}
        {interpreter : Interpreter}.

(** ** The output line *)

(** The characters [hexlify] produces are hex digits. *)
Lemma hexlify_digits (bs : bytes) :
  Forall (fun c => 48 <= c <= 102) (decode (hexlify bs)).
Proof.
  pose proof (unhexlify_valid _ _ (unhexlify_hexlify bs)) as Hv.
  unfold valid_hex in Hv. apply andb_true_iff in Hv as [_ Hv].
  rewrite forallb_forall in Hv. apply List.Forall_forall. intros c Hc.
  specialize (Hv c Hc). apply bool_decide_eq_true in Hv as [v Hv].
  eapply hex_value_range. exact Hv.
Qed.

Lemma strip_hex_line (s : pystr) :
  Forall (fun c => 48 <= c <= 102) s -> strip (s ++ nl) = s.
Proof.
  intros Hs. unfold strip, rstrip.
  assert (Hl : lstrip (s ++ nl) = s ++ nl \/ (s = [] /\ lstrip (s ++ nl) = [])).
  { destruct Hs as [|c s Hc Hs]; [right; split; reflexivity|].
    left. cbn [app lstrip]. destruct (isspace c) eqn:Hsp; [|reflexivity].
    apply isspace_range in Hsp. lia. }
  destruct Hl as [-> | (-> & ->)]; [|reflexivity].
  rewrite rev_app_distr. change (rev nl) with nl. cbn [app nl lstrip].
  change (isspace 10) with true. cbv iota.
  rewrite lstrip_digits by (apply Forall_rev; exact Hs).
  apply rev_involutive.
Qed.

Lemma split_hex_line (s : pystr) :
  Forall (fun c => 48 <= c <= 102) s -> split_line (s ++ nl) = (s ++ nl, []).
Proof.
  induction 1 as [|c s Hc Hs IH]; [reflexivity|].
  cbn [app split_line]. destruct (c =? 10) eqn:Hn.
  { apply N.eqb_eq in Hn. lia. }
  rewrite IH. reflexivity.
Qed.

(** X9.  The line stdin mode prints can be read back the way the script
    itself reads a digest: it is a single line, and stripping it and
    decoding the hex gives the signature octets, the very octets file mode
    would write. *)
Theorem stdout_line_decodes_to_the_signature
    argv args (key_path : pystr) (digest signature : bytes) w :
  parse_args argv = Parsed args ->
  spec_key_path (key args) = Some key_path ->
  by_file args = false ->
  first_line_stripped w <> [] ->
  unhexlify (first_line_stripped w) = Ok digest ->
  fst (sign_digest digest key_path w) = Ret signature ->
  exists line,
    fst (script argv w) = 0%Z
    /\ stdout (snd (script argv w)) = stdout w ++ line
    /\ split_line line = (line, [])
    /\ unhexlify (strip line) = Ok signature.
Proof.
  intros Hp Hk Hb Hl Hhex Hsig.
  destruct (stdin_mode_summary _ _ _ _ _ Hp Hk Hb Hl Hhex) as [Hc Ho].
  rewrite Hsig in Hc, Ho.
  exists (decode (hexlify signature) ++ nl).
  split; [exact Hc|]. split; [exact Ho|].
  split; [apply split_hex_line, hexlify_digits|].
  rewrite strip_hex_line by apply hexlify_digits.
  apply unhexlify_hexlify.
Qed.

End OutputLine.

(** ** Signatures verify *)

Section Verified.

Context {cryptography : Cryptography} {verification : Verification cryptography}
        {interpreter : Interpreter}.

(** A signature [sign_digest] returns was made by the library, on the digest
    as given, with the key loaded from the key file; so it verifies under
    that key's public key. *)
Lemma sign_digest_verifies (digest : bytes) (key_path : pystr) (w w' : World)
    (signature : bytes) :
  sign_digest digest key_path w = (Ret signature, w') ->
  exists pem private_key,
    fs w !! key_path = Some (File pem)
    /\ load_pem_private_key pem = Ok private_key
    /\ public_key_verify (public_key private_key) signature digest
         (ECDSA_Prehashed SHA384) = true.
Proof.
  rewrite sign_digest_cases. cbv zeta.
  destruct (fs w !! key_path) as [[pem|]|]; try discriminate.
  destruct (load_pem_private_key pem) as [k|ex] eqn:Hload; try discriminate.
  destruct (private_key_sign k digest (ECDSA_Prehashed SHA384) (entropy w))
    as [[s|ex] e] eqn:Hsign; try discriminate.
  intros [= <- _]. exists pem, k. repeat split; [assumption|].
  eapply sign_verifies. exact Hsign.
Qed.

End Verified.

(** C3.  For every library that honours the signing contract, every digest
    and every world (so every run): a signature [sign_digest] returns
    verifies, for ECDSA over the prehashed SHA-384 digest, under the public
    key of the private key loaded from the key file.  And the contract does
    not make signing deterministic: in the small ECDSA instance, the same
    48-octet digest signed with the same key file in two worlds that differ
    only in their entropy gives two different signatures. *)
Theorem signatures_verify_and_may_differ :
  (forall (C : Cryptography) (V : Verification C) (I : Interpreter)
          (digest : bytes) (key_path : pystr) (w w' : World)
          (signature : bytes),
      sign_digest digest key_path w = (Ret signature, w') ->
      exists pem private_key,
        fs w !! key_path = Some (File pem)
        /\ load_pem_private_key pem = Ok private_key
        /\ public_key_verify (public_key private_key) signature digest
             (ECDSA_Prehashed SHA384) = true)
  /\ (exists s1 s2 : bytes,
        length Examples.digest48 = digest_size SHA384
        /\ fst (sign_digest Examples.digest48 Examples.fw_key_path
                  (Examples.world [] [3%Z])) = Ret s1
        /\ fst (sign_digest Examples.digest48 Examples.fw_key_path
                  (Examples.world [] [5%Z])) = Ret s2
        /\ s1 <> s2).
Proof.
  split.
  - intros C V I digest key_path w w' signature. apply sign_digest_verifies.
  - exists (TinyEcdsa.der 10 14), (TinyEcdsa.der 9 7).
    split; [vm_compute; reflexivity|].
    split; [vm_compute; reflexivity|].
    split; [vm_compute; reflexivity|].
    vm_compute. discriminate.
Qed.

(** * Concrete runs *)

Module Runs.

Import Examples.

Lemma pair_fst {A B : Type} (p : A * B) (a : A) : fst p = a -> p = (a, snd p).
Proof. intros <-. apply surjective_pairing. Qed.

(** A 48-octet digest in [digest.bin] is replaced by its signature. *)
Lemma file_mode_overwrites_input_witness :
  exists wf,
    script (argv_file "digest.bin") w_file = (0%Z, wf)
    /\ fs wf = <[lit "digest.bin" := File (TinyEcdsa.der 10 14)]> (fs w_file)
    /\ trace wf =
         trace w_file ++
         [ EvOpen (lit "digest.bin") Rb; EvOpen fw_key_path Rb;
           EvLoadKey [x07] (Ok fw_private_key);
           EvSign fw_private_key digest48 (ECDSA_Prehashed SHA384)
             (Ok (TinyEcdsa.der 10 14));
           EvOpen (lit "digest.bin") Wb ]
    /\ stdout wf = stdout w_file
    /\ stdin wf = stdin w_file.
Proof.
  apply (file_mode_overwrites_input (argv_file "digest.bin")
           (fw_args true (Some (lit "digest.bin"))) fw_key_path
           (lit "digest.bin") digest48 [x07] fw_private_key (TinyEcdsa.der 10 14)
           (entropy_of [5%Z]));
    try (vm_compute; reflexivity).
  vm_compute. discriminate.
Defined.



(** What that run prints. *)
Example stdin_mode_output :
  fst (script argv_stdin w_hex) = 0%Z
  /\ stdout (snd (script argv_stdin w_hex)) = lit "300602010a02010e" ++ nl.
Proof. split; vm_compute; reflexivity. Qed.

(** The signature made with the firmware key verifies. *)
Lemma signatures_verify_witness :
  exists pem private_key,
    fs w_file !! fw_key_path = Some (File pem)
    /\ load_pem_private_key pem = Ok private_key
    /\ public_key_verify (public_key private_key) (TinyEcdsa.der 10 14)
         digest48 (ECDSA_Prehashed SHA384) = true.
Proof.
  apply (proj1 signatures_verify_and_may_differ TinyEcdsa.library
           TinyEcdsaProofs.verification Repr.interpreter
           digest48 fw_key_path w_file
           (snd (sign_digest digest48 fw_key_path w_file))).
  apply pair_fst. vm_compute. reflexivity.
Defined.

(** [--key fw] on the command line. *)
Lemma key_argument_selects_path_witness :
  (key (fw_args false None) = lit "fw" ->
   script argv_stdin w_idle =
   run (main_dispatch (lit "key/ast2700a1-default/own-fw-ecc-prvk.pem")
          (fw_args false None)) w_idle)
  /\ (key (fw_args false None) = lit "man" ->
      script argv_stdin w_idle =
      run (main_dispatch (lit "key/ast2700a1-default/own-man-ecc-prvk.pem")
             (fw_args false None)) w_idle)
  /\ (key (fw_args false None) <> lit "fw" ->
      key (fw_args false None) <> lit "man" ->
      script argv_stdin w_idle =
      (1%Z,
       set_stderr
         (stderr w_idle ++ lit "Unknown key type: "
          ++ key (fw_args false None) ++ nl)
         w_idle)).
Proof.
  apply (key_argument_selects_path argv_stdin (fw_args false None)).
  vm_compute. reflexivity.
Defined.

(** An unknown key type is refused. *)
Example unknown_key_type_run :
  fst (script [lit "--key"; lit "prod"] w_idle) = 1%Z
  /\ stderr (snd (script [lit "--key"; lit "prod"] w_idle))
     = lit "Unknown key type: prod" ++ nl.
Proof. split; vm_compute; reflexivity. Qed.

(** The input file [missing.bin] does not exist. *)
Lemma validation_errors_exit_1_witness :
  exists wf message,
    script (argv_file "missing.bin") w_file = (1%Z, wf)
    /\ message <> [] /\ stderr wf = stderr w_file ++ message
    /\ stdout wf = stdout w_file /\ fs wf = fs w_file
    /\ trace wf = trace w_file /\ entropy wf = entropy w_file.
Proof.
  apply (validation_errors_exit_1 (argv_file "missing.bin")
           (fw_args true (Some (lit "missing.bin")))).
  - vm_compute. reflexivity.
  - apply missing_file with (input_path := lit "missing.bin");
      vm_compute; reflexivity.
Defined.

(** Without [--key], argparse ends the run with status 2. *)
Lemma failures_exit_1_or_2_witness :
  (exists message,
     message <> []
     /\ stderr (snd (script [] w_idle)) = stderr w_idle ++ message)
  /\ fst (script [] w_idle) = 2%Z.
Proof.
  refine (failures_exit_1_or_2 [] w_idle
            (fst (script [] w_idle)) (snd (script [] w_idle)) _ _).
  - apply surjective_pairing.
  - vm_compute. discriminate.
Defined.

(** C6 as stated fails: a command line without [--key] is a failing
    invocation, reported on standard error, whose exit status is 2. *)
Lemma missing_key_exits_2 :
  fst (script [] w_idle) = 2%Z
  /\ fst (script [] w_idle) <> 0%Z
  /\ fst (script [] w_idle) <> 1%Z
  /\ stderr (snd (script [] w_idle)) =
       lit "usage: ecc_sign_helper.py [-h] --key KEY [--by-file] [--input INPUT]"
       ++ nl
       ++ lit "ecc_sign_helper.py: error: the following arguments are required: --key"
       ++ nl.
Proof.
  split; [vm_compute; reflexivity|].
  split; [vm_compute; discriminate|].
  split; [vm_compute; discriminate|].
  vm_compute. reflexivity.
Qed.

(** An odd number of hex digits on standard input. *)
Lemma stdin_mode_rejects_malformed_hex_witness :
  exists wf,
    script argv_stdin w_odd = (1%Z, wf)
    /\ stdout wf = stdout w_odd /\ fs wf = fs w_odd
    /\ trace wf = trace w_odd.
Proof.
  apply (stdin_mode_rejects_malformed_hex argv_stdin (fw_args false None));
    try (vm_compute; reflexivity).
  vm_compute. discriminate.
Defined.

(** A three-octet file: the library refuses, the file keeps its contents. *)
Lemma file_mode_writes_only_after_signing_witness :
  (fst (script (argv_file "short.bin") w_file) <> 0%Z ->
   fs (snd (script (argv_file "short.bin") w_file)) = fs w_file)
  /\ exists evs,
       trace (snd (script (argv_file "short.bin") w_file)) = trace w_file ++ evs
       /\ writes_follow_signature evs.
Proof.
  apply (file_mode_writes_only_after_signing (argv_file "short.bin")
           (fw_args true (Some (lit "short.bin"))));
    [vm_compute; reflexivity | reflexivity | apply surjective_pairing].
Defined.

Example short_file_is_kept :
  fst (script (argv_file "short.bin") w_file) = 1%Z
  /\ fs (snd (script (argv_file "short.bin") w_file)) !! lit "short.bin"
     = Some (File digest3).
Proof. split; vm_compute; reflexivity. Qed.

(** An empty file: the library is called on the empty digest and refuses. *)
Lemma digest_length_is_not_checked_witness :
  exists code wf pre post,
    script (argv_file "empty.bin") w_file = (code, wf)
    /\ trace wf =
         trace w_file ++ pre
         ++ EvSign fw_private_key [] (ECDSA_Prehashed SHA384)
              (fst (private_key_sign fw_private_key []
                      (ECDSA_Prehashed SHA384) (entropy w_file)))
            :: post
    /\ forall ex,
         fst (private_key_sign fw_private_key [] (ECDSA_Prehashed SHA384)
                (entropy w_file)) = Err ex ->
         code = 1%Z /\ fs wf = fs w_file /\ stdout wf = stdout w_file
         /\ exists text, stderr wf = text ++ format_exception ex.
Proof.
  apply (digest_length_is_not_checked (argv_file "empty.bin")
           (fw_args true (Some (lit "empty.bin"))) fw_key_path [] [x07]
           fw_private_key);
    try (vm_compute; reflexivity).
  left. split; [reflexivity|]. exists (lit "empty.bin").
  split; [reflexivity|]. split; [vm_compute; discriminate|].
  vm_compute. reflexivity.
Defined.

Example empty_file_is_refused_by_the_library :
  fst (private_key_sign fw_private_key [] (ECDSA_Prehashed SHA384)
         (entropy w_file))
  = Err (Exception "ValueError"
           (lit "The provided data must be the same length as the hash algorithm's digest size."))
  /\ fst (script (argv_file "empty.bin") w_file) = 1%Z.
Proof. split; vm_compute; reflexivity. Qed.

(** Three octets in hex on standard input reach the library, which refuses. *)
Example short_hex_reaches_the_library :
  signed_digests (trace (snd (script argv_stdin w_short_hex))) = [digest3]
  /\ fst (script argv_stdin w_short_hex) = 1%Z
  /\ stdout (snd (script argv_stdin w_short_hex)) = [].
Proof.
  split; [vm_compute; reflexivity|]. split; vm_compute; reflexivity.
Qed.

(** C9 as stated fails in stdin mode: the empty string is a hex string of
    even length (zero), it decodes to the empty digest, and yet the script
    makes no library call on it; its own check ends the run. *)
Lemma empty_hex_is_rejected_by_the_script :
  first_line_stripped w_empty_line = []
  /\ Nat.even (length (first_line_stripped w_empty_line)) = true
  /\ unhexlify (first_line_stripped w_empty_line) = Ok []
  /\ fst (script argv_stdin w_empty_line) = 1%Z
  /\ trace (snd (script argv_stdin w_empty_line)) = []
  /\ stderr (snd (script argv_stdin w_empty_line)) =
       lit "Error: No digest provided via stdin" ++ nl.
Proof.
  split; [vm_compute; reflexivity|].
  split; [vm_compute; reflexivity|].
  split; [vm_compute; reflexivity|].
  split; [vm_compute; reflexivity|].
  split; [|vm_compute; reflexivity].
  apply length_zero_iff_nil. vm_compute. reflexivity.
Qed.

(** The padded line in two chunks: the run is the run on the bare hex line,
    and the third chunk is left unread. *)
Lemma stdin_mode_reads_one_line_witness :
  script argv_stdin w_chunks =
  (fst (script argv_stdin
          (set_stdin [Decoded (decode (hexlify digest48) ++ nl)] w_chunks)),
   set_stdin [Decoded (lit " line" ++ nl)]
     (snd (script argv_stdin
             (set_stdin [Decoded (decode (hexlify digest48) ++ nl)] w_chunks))))
  /\ forall (digest pem : bytes) (private_key : PrivateKey),
       decode (hexlify digest48) <> [] ->
       unhexlify (decode (hexlify digest48)) = Ok digest ->
       fs w_chunks !! fw_key_path = Some (File pem) ->
       load_pem_private_key pem = Ok private_key ->
       signed_digests (trace (snd (script argv_stdin w_chunks)))
       = signed_digests (trace w_chunks) ++ [digest].
Proof.
  apply (stdin_mode_reads_one_line argv_stdin (fw_args false None) fw_key_path
           w_chunks
           [lit "  " ++ decode (hexlify (repeat x50 20))]
           (decode (hexlify (repeat x50 28)) ++ lit " ")
           (lit "second") [Decoded (lit " line" ++ nl)]
           (lit "  ") (decode (hexlify digest48)) (lit " "));
    vm_compute; reflexivity.
Defined.

Example padded_line_in_chunks_is_signed :
  fst (script argv_stdin w_chunks) = 0%Z
  /\ stdout (snd (script argv_stdin w_chunks)) = lit "300602010a02010e" ++ nl
  /\ signed_digests (trace (snd (script argv_stdin w_chunks))) = [digest48]
  /\ stdin (snd (script argv_stdin w_chunks)) = [Decoded (lit " line" ++ nl)].
Proof.
  split; [vm_compute; reflexivity|].
  split; [vm_compute; reflexivity|].
  split; vm_compute; reflexivity.
Qed.

(** Two lines that arrive in one chunk are both taken from the descriptor;
    the second one is never looked at. *)
Example two_lines_in_one_chunk :
  stdin (snd (script argv_stdin w_two_lines)) = []
  /\ signed_digests (trace (snd (script argv_stdin w_two_lines))) = [[x50; x50]]
  /\ fst (script argv_stdin w_two_lines) = 1%Z.
Proof. split; [vm_compute; reflexivity|]. split; vm_compute; reflexivity. Qed.

(** C10 as stated fails.  Two inputs with the same first line, the hex of a
    48-octet digest.  In the first, a second line follows in the same chunk:
    the run prints the signature, and has taken the second line from the
    descriptor along with the first.  In the second, the octet that follows
    in the same chunk is not UTF-8: [readline] raises, and the run ends with
    status 1 having signed and printed nothing. *)
Lemma input_after_the_first_line_matters :
  fst (split_line (stdin_text (stdin w_more))) = decode (hexlify digest48) ++ nl
  /\ fst (split_line (stdin_text (stdin w_bad_tail)))
     = decode (hexlify digest48) ++ nl
  /\ snd (split_line (stdin_text (stdin w_more))) = lit "more" ++ nl
  /\ fst (script argv_stdin w_more) = 0%Z
  /\ stdout (snd (script argv_stdin w_more)) = lit "300602010a02010e" ++ nl
  /\ stdin (snd (script argv_stdin w_more)) = []
  /\ fst (script argv_stdin w_bad_tail) = 1%Z
  /\ stdout (snd (script argv_stdin w_bad_tail)) = []
  /\ length (trace (snd (script argv_stdin w_bad_tail))) = 0%nat
  /\ stderr (snd (script argv_stdin w_bad_tail)) =
       lit "Traceback (most recent call last):" ++ nl
       ++ lit "UnicodeDecodeError: 'utf-8' codec can't decode byte 0xff in position 97: invalid start byte"
       ++ nl.
Proof.
  split; [vm_compute; reflexivity|].
  split; [vm_compute; reflexivity|].
  split; [vm_compute; reflexivity|].
  split; [vm_compute; reflexivity|].
  split; [vm_compute; reflexivity|].
  split; [vm_compute; reflexivity|].
  split; [vm_compute; reflexivity|].
  split; [vm_compute; reflexivity|].
  split; vm_compute; reflexivity.
Qed.

End Runs.

(** * More concrete runs *)

Module MoreRuns.

Import Examples.

(** The run that signs [digest.bin]. *)
Lemma only_the_input_file_changes_witness :
  fs (snd (script (argv_file "digest.bin") w_file)) = fs w_file
  \/ (fst (script (argv_file "digest.bin") w_file) = 0%Z
      /\ exists args input_path signature,
           parse_args (argv_file "digest.bin") = Parsed args
           /\ by_file args = true
           /\ input args = Some input_path
           /\ fs (snd (script (argv_file "digest.bin") w_file))
              = <[input_path := File signature]> (fs w_file)).
Proof.
  apply (only_the_input_file_changes (argv_file "digest.bin") w_file).
  apply surjective_pairing.
Defined.

Example key_file_survives_signing :
  fs (snd (script (argv_file "digest.bin") w_file)) !! fw_key_path
  = Some (File [x07]).
Proof. vm_compute. reflexivity. Qed.


Example file_mode_is_silent_on_stdout :
  stdout (snd (script (argv_file "digest.bin") w_hex)) = []
  /\ stdin (snd (script (argv_file "digest.bin") w_hex)) = stdin w_hex.
Proof. split; vm_compute; reflexivity. Qed.

(** The calls of the run that signs [digest.bin]. *)
Lemma at_most_one_signing_call_with_the_selected_key_witness :
  exists evs,
    trace (snd (script (argv_file "digest.bin") w_file)) = trace w_file ++ evs
    /\ (length (signed_digests evs) <= 1)%nat
    /\ forall private_key digest algorithm r,
         In (EvSign private_key digest algorithm r) evs ->
         algorithm = ECDSA_Prehashed SHA384
         /\ r = fst (private_key_sign private_key digest
                       (ECDSA_Prehashed SHA384) (entropy w_file))
         /\ exists args key_path pem,
              parse_args (argv_file "digest.bin") = Parsed args
              /\ spec_key_path (key args) = Some key_path
              /\ fs w_file !! key_path = Some (File pem)
              /\ load_pem_private_key pem = Ok private_key.
Proof.
  apply (at_most_one_signing_call_with_the_selected_key
           (argv_file "digest.bin") w_file
           (fst (script (argv_file "digest.bin") w_file))).
  apply surjective_pairing.
Defined.

Example one_digest_is_signed :
  signed_digests (trace (snd (script (argv_file "digest.bin") w_file)))
  = [digest48].
Proof. vm_compute. reflexivity. Qed.

(** Status 0 in stdin mode. *)
Lemma status_0_means_signature_delivered_witness :
  exists key_path pem private_key digest signature e',
    spec_key_path (key (fw_args false None)) = Some key_path
    /\ fs w_hex !! key_path = Some (File pem)
    /\ load_pem_private_key pem = Ok private_key
    /\ private_key_sign private_key digest (ECDSA_Prehashed SHA384)
         (entropy w_hex) = (Ok signature, e')
    /\ if by_file (fw_args false None) then
         exists input_path,
           input (fw_args false None) = Some input_path
           /\ fs w_hex !! input_path = Some (File digest)
           /\ fs (snd (script argv_stdin w_hex))
              = <[input_path := File signature]> (fs w_hex)
           /\ stdout (snd (script argv_stdin w_hex)) = stdout w_hex
       else
         unhexlify (first_line_stripped w_hex) = Ok digest
         /\ stdout (snd (script argv_stdin w_hex))
            = stdout w_hex ++ decode (hexlify signature) ++ nl
         /\ fs (snd (script argv_stdin w_hex)) = fs w_hex.
Proof.
  apply (status_0_means_signature_delivered argv_stdin (fw_args false None)
           w_hex (snd (script argv_stdin w_hex))).
  - vm_compute. reflexivity.
  - apply Runs.pair_fst. vm_compute. reflexivity.
Defined.

(** [--key man] where no manufacturer key is installed. *)
Lemma without_a_loadable_key_every_run_fails_witness :
  exists wf evs,
    script argv_man w_hex = (1%Z, wf)
    /\ trace wf = trace w_hex ++ evs
    /\ signed_digests evs = []
    /\ entropy wf = entropy w_hex
    /\ fs wf = fs w_hex
    /\ stdout wf = stdout w_hex.
Proof.
  apply (without_a_loadable_key_every_run_fails argv_man man_args man_key_path).
  - vm_compute. reflexivity.
  - vm_compute. reflexivity.
  - intros pem private_key H. vm_compute in H. discriminate.
Defined.

Example missing_key_file_message :
  fst (script argv_man w_hex) = 1%Z
  /\ stdout (snd (script argv_man w_hex)) = [].
Proof. split; vm_compute; reflexivity. Qed.

(** [--input out], a directory. *)
Lemma directory_as_input_is_an_uncaught_error_witness :
  exists wf,
    script (argv_file "out") w_dir = (1%Z, wf)
    /\ trace wf = trace w_dir ++ [EvOpen (lit "out") Rb]
    /\ stderr wf =
         stderr w_dir
         ++ (lit "Using input file: " ++ lit "out" ++ nl)
         ++ format_exception
              (errno_error "IsADirectoryError" "[Errno 21] Is a directory"
                 (lit "out"))
    /\ fs wf = fs w_dir /\ stdout wf = stdout w_dir
    /\ stdin wf = stdin w_dir
    /\ entropy wf = entropy w_dir.
Proof.
  apply (directory_as_input_is_an_uncaught_error (argv_file "out")
           (fw_args true (Some (lit "out"))) fw_key_path);
    try (vm_compute; reflexivity).
  vm_compute. discriminate.
Defined.

(** What the interpreter prints for the directory, and for one whose name
    holds an apostrophe: [repr] then quotes the name with double quotes. *)
Example directory_messages :
  stderr (snd (script (argv_file "out") w_dir)) =
    lit "Using input file: out" ++ nl
    ++ lit "Traceback (most recent call last):" ++ nl
    ++ lit "IsADirectoryError: [Errno 21] Is a directory: 'out'" ++ nl
  /\ stderr (snd (script (argv_file "o'ut") w_quoted_dir)) =
       lit "Using input file: o'ut" ++ nl
       ++ lit "Traceback (most recent call last):" ++ nl
       ++ lit "IsADirectoryError: [Errno 21] Is a directory: "
       ++ [34] ++ lit "o'ut" ++ [34] ++ nl.
Proof. split; vm_compute; reflexivity. Qed.

(** An undecodable octet after the first line, in the chunk of that line. *)
Lemma undecodable_input_fails_the_run_witness :
  exists wf,
    script argv_stdin w_bad_tail = (1%Z, wf)
    /\ stderr wf =
         stderr w_bad_tail
         ++ format_exception
              (Exception "UnicodeDecodeError"
                 (lit "'utf-8' codec can't decode byte 0xff in position 97: invalid start byte"))
    /\ stdout wf = stdout w_bad_tail /\ trace wf = trace w_bad_tail
    /\ fs wf = fs w_bad_tail /\ entropy wf = entropy w_bad_tail
    /\ stdin wf = [].
Proof.
  apply (undecodable_input_fails_the_run argv_stdin (fw_args false None)
           fw_key_path w_bad_tail [] (decode (hexlify digest48) ++ nl));
    vm_compute; reflexivity.
Defined.

(** [digest.bin] and the hex of the same digest on standard input. *)
Lemma both_modes_sign_alike_witness :
  fst (script (argv_file "digest.bin") w_hex) = fst (script argv_stdin w_hex)
  /\ (fst (script argv_stdin w_hex) = 0%Z ->
      exists signature,
        fs (snd (script (argv_file "digest.bin") w_hex)) !! lit "digest.bin"
        = Some (File signature)
        /\ stdout (snd (script argv_stdin w_hex))
           = stdout w_hex ++ decode (hexlify signature) ++ nl).
Proof.
  apply (both_modes_sign_alike (argv_file "digest.bin")
           (fw_args true (Some (lit "digest.bin"))) argv_stdin
           (fw_args false None) fw_key_path (lit "digest.bin") digest48);
    try (vm_compute; reflexivity).
  - vm_compute. discriminate.
  - vm_compute. discriminate.
Defined.

(** Signing [digest.bin] twice. *)
Lemma rerun_signs_the_signature_witness :
  exists signature evs,
    fs (snd (script (argv_file "digest.bin") w_file)) !! lit "digest.bin"
    = Some (File signature)
    /\ trace (snd (script (argv_file "digest.bin")
                     (snd (script (argv_file "digest.bin") w_file))))
       = trace (snd (script (argv_file "digest.bin") w_file)) ++ evs
    /\ signed_digests evs = [signature].
Proof.
  apply (rerun_signs_the_signature (argv_file "digest.bin")
           (fw_args true (Some (lit "digest.bin"))) fw_key_path
           (lit "digest.bin") w_file).
  - vm_compute. reflexivity.
  - vm_compute. reflexivity.
  - reflexivity.
  - reflexivity.
  - vm_compute. discriminate.
  - apply Runs.pair_fst. vm_compute. reflexivity.
Defined.

(** The second run is refused by the library: a signature is not 48 octets
    long; the file keeps the signature of the first run. *)
Example second_run_is_refused :
  fst (script (argv_file "digest.bin")
         (snd (script (argv_file "digest.bin") w_file))) = 1%Z
  /\ fs (snd (script (argv_file "digest.bin")
                (snd (script (argv_file "digest.bin") w_file))))
     !! lit "digest.bin" = Some (File (TinyEcdsa.der 10 14)).
Proof. split; vm_compute; reflexivity. Qed.

(** The line printed for the 48-octet digest. *)
Lemma stdout_line_decodes_to_the_signature_witness :
  exists line,
    fst (script argv_stdin w_hex) = 0%Z
    /\ stdout (snd (script argv_stdin w_hex)) = stdout w_hex ++ line
    /\ split_line line = (line, [])
    /\ unhexlify (strip line) = Ok (TinyEcdsa.der 10 14).
Proof.
  apply (stdout_line_decodes_to_the_signature argv_stdin (fw_args false None)
           fw_key_path digest48);
    try (vm_compute; reflexivity).
  vm_compute. discriminate.
Defined.

End MoreRuns.
